(** * Test plan generator: transcript extraction and fallback parsing

    A shallow embedding of [src/testplan_generator.py]
    (class [TestPlanGenerator]) together with the properties its
    specification states about it.

    Modelling conventions.
    - A Python [str] is a [string]; each [ascii] stands for one code point
      below 256.  On that range [str.isspace] holds for 9-13, 28-32, 133
      and 160, and the regular-expression class [\d] is ['0'..'9'].
    - A chat message is a Python dict; it is a [gmap string string] and
      [msg.get(k, d)] is [default d (msg !! k)].
    - [print] appends to the [stdout] component of the world,
      [open(.., "w")] empties one entry of the [files] component and
      [write] appends to it.
    - A call ends in one of three ways: it returns, it raises an exception
      of class [Exception] ([Raised]), or it raises one outside that class
      such as [KeyboardInterrupt] ([Interrupted]), which the handler of
      [generate_test_plan] does not catch.
    - The group chat itself (the language-model backend) is external: its
      outcome, the transcript it left in [groupchat.messages] and the
      exception it may have raised, is an argument of [generate_test_plan];
      the prompt handed to it plays no part in what follows and is left out.
    - Every value of a message is a [str] (a [None] content is outside the
      model).  The conversions between [int] and [str] are those of
      CPython 3.11 with its default limit of 4300 digits: [int] raises
      [ValueError] on a longer run of digits, and [str] on an integer of
      more than 4300 digits.  The only failure of [open] that is modelled
      is a refusal ([PermissionError]). *)

From Stdlib Require Import ZArith NArith Ascii String DecimalString.
From stdpp Require Import gmap strings list.

Local Open Scope Z_scope.

(** ** Python string primitives *)

Module Py.

(** [str.isspace] on one code point below 256. *)
Definition isspace (c : ascii) : bool :=
  let n := N_of_ascii c in
  ((9 <=? n) && (n <=? 13) || (28 <=? n) && (n <=? 32)
   || (n =? 133) || (n =? 160))%N.

(** The class [\d] on one code point below 256. *)
Definition isdigit (c : ascii) : bool :=
  let n := N_of_ascii c in ((48 <=? n) && (n <=? 57))%N.

Fixpoint lstrip (s : string) : string :=
  match s with
  | EmptyString => EmptyString
  | String c s' => if isspace c then lstrip s' else s
  end.

Fixpoint rstrip (s : string) : string :=
  match s with
  | EmptyString => EmptyString
  | String c s' =>
      match rstrip s' with
      | EmptyString => if isspace c then EmptyString else String c EmptyString
      | r => String c r
      end
  end.

(** [s.strip()] *)
Definition strip (s : string) : string := rstrip (lstrip s).

(** [s.startswith(p)] *)
Definition startswith (s p : string) : bool := String.prefix p s.

(** Position of the first occurrence of [sub] in [s]. *)
Fixpoint find_nat (sub s : string) : option nat :=
  if String.prefix sub s then Some O
  else match s with
       | EmptyString => None
       | String _ s' => S <$> find_nat sub s'
       end.

(** [s.find(sub)]: the lowest index of [sub] in [s], [-1] when absent. *)
Definition find (s sub : string) : Z :=
  match find_nat sub s with
  | Some i => Z.of_nat i
  | None => -1
  end.

(** [sub in s] *)
Definition contains (sub s : string) : bool :=
  match find_nat sub s with Some _ => true | None => false end.

(** [s[i:j]] with Python's treatment of negative and oversized indices. *)
Definition slice (s : string) (i j : Z) : string :=
  let n := Z.of_nat (String.length s) in
  let adjust k := if k <? 0 then Z.max 0 (k + n) else Z.min k n in
  let i' := adjust i in
  let j' := adjust j in
  if i' <? j' then String.substring (Z.to_nat i') (Z.to_nat (j' - i')) s
  else EmptyString.

(** [s[n:]] for a natural [n]. *)
Fixpoint drop (n : nat) (s : string) : string :=
  match n, s with
  | O, _ => s
  | S _, EmptyString => EmptyString
  | S n', String _ s' => drop n' s'
  end.

(** [s.split(sep)] for a non-empty [sep]: a left-to-right scan cutting at
    each occurrence of [sep] that does not overlap the previous cut.
    [skip] counts the characters of the separator still to be passed. *)
Fixpoint split_go (sep : string) (skip : nat) (s : string) : list string :=
  match s with
  | EmptyString => [EmptyString]
  | String c s' =>
      match skip with
      | S k => split_go sep k s'
      | O =>
          if String.prefix sep s
          then EmptyString :: split_go sep (String.length sep - 1) s'
          else match split_go sep O s' with
               | p :: ps => String c p :: ps
               | [] => [String c EmptyString]
               end
      end
  end.

Definition split (s sep : string) : list string := split_go sep O s.

(** [l[-1]] on a list of strings (the lists met here are never empty). *)
Definition last (l : list string) : string := List.last l EmptyString.

(** The longest run of digits at the start of [s]: what a greedy [\d+]
    (or [\d*]) consumes there. *)
Fixpoint take_digits (s : string) : string :=
  match s with
  | EmptyString => EmptyString
  | String c s' => if isdigit c then String c (take_digits s') else EmptyString
  end.

(** The number a run of decimal digits denotes: what [int(ds)] returns
    when it returns.  The conversion itself, with the limit CPython puts
    on it, is [int_of_digits] below. *)
Definition int (ds : string) : N :=
  let fix go (acc : N) (s : string) : N :=
    match s with
    | EmptyString => acc
    | String c s' => go (10 * acc + (N_of_ascii c - 48))%N s'
    end in
  go 0%N ds.

End Py.

(** ** The two regular expressions of the fallback parser *)

Module Re.

(** [re.search(r"Test Case (\d+)", line)]: group 1 of the leftmost match,
    [None] when there is none.  At a given position the pattern matches
    iff the literal is followed by a digit, and the greedy [\d+] then
    takes the whole run of digits. *)
Fixpoint search_test_case (line : string) : option string :=
  match line with
  | EmptyString => None
  | String _ rest =>
      if Py.startswith line "Test Case " then
        match Py.take_digits (Py.drop 10 line) with
        | EmptyString => search_test_case rest
        | ds => Some ds
        end
      else search_test_case rest
  end.

(** [re.match(r"\d+\.", s)] as a truth value: a non-empty run of digits
    at the start of [s] followed by a dot. *)
Definition match_numbering (s : string) : bool :=
  match Py.take_digits s with
  | EmptyString => false
  | ds => Py.startswith (Py.drop (String.length ds) s) "."
  end.

End Re.

(** ** Data model *)

(** One test case: the dict built at lines 137-146. *)
Module TestCase.
Record t := Build {
  test_case_number : N;
  title : string;
  objective : string;
  preconditions : string;
  steps : list string;
  expected_results : string;
  priority : string;
  status : string
}.

Definition set_objective (v : string) (c : t) : t :=
  Build (test_case_number c) (title c) v (preconditions c) (steps c)
        (expected_results c) (priority c) (status c).
Definition set_preconditions (v : string) (c : t) : t :=
  Build (test_case_number c) (title c) (objective c) v (steps c)
        (expected_results c) (priority c) (status c).
Definition set_expected_results (v : string) (c : t) : t :=
  Build (test_case_number c) (title c) (objective c) (preconditions c)
        (steps c) v (priority c) (status c).
Definition set_priority (v : string) (c : t) : t :=
  Build (test_case_number c) (title c) (objective c) (preconditions c)
        (steps c) (expected_results c) v (status c).
Definition set_status (v : string) (c : t) : t :=
  Build (test_case_number c) (title c) (objective c) (preconditions c)
        (steps c) (expected_results c) (priority c) v.
Definition append_step (v : string) (c : t) : t :=
  Build (test_case_number c) (title c) (objective c) (preconditions c)
        (steps c ++ [v]) (expected_results c) (priority c) (status c).
End TestCase.

(** The structured plan: the dict built at lines 113-121. *)
Module Plan.
Record t := Build {
  objective : string;
  scope : string;
  testing_strategy : string;
  test_environment : string;
  schedule : string;
  test_cases : list TestCase.t;
  risk_assessment : string
}.
End Plan.

(** What the generator returns: a dict with the single key ["test_plan"]
    (raw form), or the structured dict of the fallback parser. *)
Inductive test_plan_record :=
| RawPlan (test_plan : string)
| StructuredPlan (p : Plan.t).

(** A chat message. *)
Abbreviation message := (gmap string string).

(** [msg.get("content", "")] *)
Definition get_content (msg : message) : string :=
  default EmptyString (msg !! "content").

Definition NL : string := String "010" "".

(** ** Transcript Extractor: the loop of [_extract_test_plan_content] *)

Definition START_MARKER : string := "TEST PLAN:".
Definition END_MARKER : string := "END OF TEST PLAN".
Definition NO_PLAN : string := "No test plan could be extracted.".

(** The body of [for msg in reversed(messages)], on the already reversed
    list: [Some text] when the loop returns, [None] when it runs out. *)
Fixpoint scan_reversed (msgs : list message) : option string :=
  match msgs with
  | [] => None
  | msg :: rest =>
      let content := get_content msg in
      if Py.contains START_MARKER content then
        let start_idx := Py.find content START_MARKER in
        let end_idx := Py.find content END_MARKER in
        if negb (start_idx =? -1) && negb (end_idx =? -1)
        then Some (Py.strip (Py.slice content start_idx end_idx))
        else scan_reversed rest
      else scan_reversed rest
  end.

(** The value [_extract_test_plan_content] returns. *)
Definition extract_value (messages : list message) : test_plan_record :=
  match scan_reversed (rev messages) with
  | Some text => RawPlan text
  | None => RawPlan NO_PLAN
  end.

(** ** Fallback Structural Parser: the loops of
       [_emergency_test_plan_processing]

    The only step of the loops that can raise is the conversion
    [int(test_case_match.group(1))].  The definitions of this section are
    the loops on the path where that conversion returns, with [Py.int] for
    the number it returns; [checked_line], [checked_message] and
    [emergency_checked] further down are the loops with the conversion as
    CPython performs it, and [emergency_checked_spec] relates the two. *)

Definition TBD : string := "To be determined".

(** The loop state: [test_plan["test_cases"]] and [current_test_case]. *)
Definition parser_state : Type := list TestCase.t * option TestCase.t.

(** Lines 137-146: the dict of a newly opened case. *)
Definition new_test_case (line digits : string) : TestCase.t :=
  TestCase.Build
    (Py.int digits)
    (if Py.contains ":" line then Py.strip (Py.last (Py.split line ":"))
     else "Test Case " +:+ digits)
    "" "" [] "" "Medium" "Draft".

(** Lines 132-146: the heading test. *)
Definition open_case (content line : string) (st : parser_state) : parser_state :=
  match Re.search_test_case line with
  | Some digits =>
      if Py.contains "Objective:" content then
        let cases := match st.2 with
                     | Some cur => st.1 ++ [cur]
                     | None => st.1
                     end in
        (cases, Some (new_test_case line digits))
      else st
  | None => st
  end.

(** Lines 150-161: the chain of field tests on one line. *)
Definition extract_field (line : string) (cur : TestCase.t) : TestCase.t :=
  let l := Py.strip line in
  if Py.startswith l "Objective:" then
    TestCase.set_objective (Py.strip (Py.last (Py.split line "Objective:"))) cur
  else if Py.startswith l "Preconditions:" then
    TestCase.set_preconditions
      (Py.strip (Py.last (Py.split line "Preconditions:"))) cur
  else if Py.startswith l "Expected Results:" then
    TestCase.set_expected_results
      (Py.strip (Py.last (Py.split line "Expected Results:"))) cur
  else if Py.startswith l "Priority:" then
    TestCase.set_priority (Py.strip (Py.last (Py.split line "Priority:"))) cur
  else if Py.startswith l "Status:" then
    TestCase.set_status (Py.strip (Py.last (Py.split line "Status:"))) cur
  else if Py.startswith l "-" || Re.match_numbering l then
    TestCase.append_step l cur
  else cur.

(** The body of [for line in lines]. *)
Definition process_line (content : string) (st : parser_state) (line : string)
  : parser_state :=
  let st' := open_case content line st in
  (st'.1, extract_field line <$> st'.2).

(** The body of [for msg in messages]. *)
Definition process_message (st : parser_state) (msg : message) : parser_state :=
  let content := get_content msg in
  foldl (process_line content) st (Py.split content NL).

(** The value [_emergency_test_plan_processing] returns, when it returns. *)
Definition emergency_value (messages : list message) : Plan.t :=
  let st := foldl process_message ([], None) messages in
  let cases := match st.2 with
               | Some cur => st.1 ++ [cur]
               | None => st.1
               end in
  Plan.Build TBD TBD TBD TBD TBD cases TBD.

(** ** [repr] and [str] of the values the Plan Writer prints *)

Module Repr.

Definition hex_digit (n : N) : ascii :=
  ascii_of_N (if (n <? 10)%N then 48 + n else 87 + n)%N.

(** [str.isprintable] on one code point from 128 to 255. *)
Definition printable_high (n : N) : bool :=
  ((161 <=? n) && negb (n =? 173))%N.

(** What [repr] writes for one character of a string quoted by [quote]. *)
Definition char (quote c : ascii) : string :=
  let n := N_of_ascii c in
  if Ascii.eqb c quote || Ascii.eqb c "\" then String "\" (String c "")
  else if (n =? 9)%N then "\t"
  else if (n =? 10)%N then "\n"
  else if (n =? 13)%N then "\r"
  else if (n <? 32)%N || (n =? 127)%N || (127 <? n)%N && negb (printable_high n)
  then String "\" (String "x" (String (hex_digit (n / 16)) (String (hex_digit (n mod 16)) "")))
  else String c "".

Fixpoint body (quote : ascii) (s : string) : string :=
  match s with
  | EmptyString => EmptyString
  | String c s' => char quote c +:+ body quote s'
  end.

(** The double quote character. *)
Definition DQUOTE : ascii := "034"%char.

(** [repr(s)] for a [str]: double quotes only when [s] has a single quote
    and no double quote. *)
Definition of_str (s : string) : string :=
  let quote : ascii :=
    if Py.contains "'" s && negb (Py.contains (String DQUOTE "") s)
    then DQUOTE else "'"%char in
  String quote (body quote s) +:+ String quote "".

(** [repr(n)] for a non-negative [int]. *)
Definition of_int (n : N) : string :=
  NilEmpty.string_of_uint (N.to_uint n).

(** [", ".join(items)] *)
Fixpoint join (items : list string) : string :=
  match items with
  | [] => EmptyString
  | [x] => x
  | x :: rest => x +:+ ", " +:+ join rest
  end.

(** [repr(l)] for a list whose items have the given [repr]s. *)
Definition of_list (items : list string) : string := "[" +:+ join items +:+ "]".

(** [repr(d)] for a dict with the given keys, in insertion order, and the
    given [repr]s of its values. *)
Definition of_dict (items : list (string * string)) : string :=
  "{" +:+ join ((λ kv, of_str kv.1 +:+ ": " +:+ kv.2) <$> items) +:+ "}".

Definition test_case (c : TestCase.t) : string :=
  of_dict [ ("test_case_number", of_int (TestCase.test_case_number c));
         ("title", of_str (TestCase.title c));
         ("objective", of_str (TestCase.objective c));
         ("preconditions", of_str (TestCase.preconditions c));
         ("steps", of_list (of_str <$> TestCase.steps c));
         ("expected_results", of_str (TestCase.expected_results c));
         ("priority", of_str (TestCase.priority c));
         ("status", of_str (TestCase.status c)) ].

Definition plan (p : Plan.t) : string :=
  of_dict [ ("objective", of_str (Plan.objective p));
         ("scope", of_str (Plan.scope p));
         ("testing_strategy", of_str (Plan.testing_strategy p));
         ("test_environment", of_str (Plan.test_environment p));
         ("schedule", of_str (Plan.schedule p));
         ("test_cases", of_list (test_case <$> Plan.test_cases p));
         ("risk_assessment", of_str (Plan.risk_assessment p)) ].

End Repr.

(** ** Effects: standard output, files and exceptions *)

Record world := World {
  stdout : list string;            (* one entry per [print] call *)
  files : gmap string string;      (* path to text *)
  unwritable : gset string         (* paths [open(.., "w")] is refused on *)
}.

(** How a call ends.  [Raised e] is an exception of class [Exception],
    with [e] for [str(e)]; [Interrupted e] is one outside that class
    ([KeyboardInterrupt], [SystemExit]), which [except Exception] lets
    through. *)
Inductive outcome (A : Type) :=
| Returned (a : A)
| Raised (e : string)
| Interrupted (e : string).
Arguments Returned {A} a.
Arguments Raised {A} e.
Arguments Interrupted {A} e.

(** Sequencing of calls that touch nothing. *)
Definition obind {A B} (o : outcome A) (k : A → outcome B) : outcome B :=
  match o with
  | Returned a => k a
  | Raised e => Raised e
  | Interrupted e => Interrupted e
  end.

(** [f] on each item in turn, up to the first call that does not return. *)
Definition all_outcomes {A B} (f : A → outcome B)
  : list A → outcome (list B) :=
  fix go (items : list A) : outcome (list B) :=
    match items with
    | [] => Returned []
    | x :: rest => obind (f x) (λ r, obind (go rest) (λ rs, Returned (r :: rs)))
    end.

Definition io (A : Type) : Type := world → outcome A * world.

Definition ret {A} (a : A) : io A := λ w, (Returned a, w).

Definition bind {A B} (m : io A) (k : A → io B) : io B :=
  λ w, match m w with
       | (Returned a, w') => k a w'
       | (Raised e, w') => (Raised e, w')
       | (Interrupted e, w') => (Interrupted e, w')
       end.

Definition raise {A} (e : string) : io A := λ w, (Raised e, w).

Definition lift {A} (o : outcome A) : io A := λ w, (o, w).

(** [try: body / except Exception as e: handler(str(e))] *)
Definition try_except {A} (body : io A) (handler : string → io A) : io A :=
  λ w, match body w with
       | (Returned a, w') => (Returned a, w')
       | (Raised e, w') => handler e w'
       | (Interrupted e, w') => (Interrupted e, w')
       end.

Declare Scope io_scope.
Delimit Scope io_scope with io.
Notation "x <- m ;; k" := (bind m (λ x, k))
  (at level 100, m at next level, right associativity) : io_scope.
Notation "m ;; k" := (bind m (λ _, k))
  (at level 100, right associativity) : io_scope.

Definition print (s : string) : io unit :=
  λ w, (Returned tt, World (stdout w ++ [s]) (files w) (unwritable w)).

(** [open(path, "w")]: the file is emptied, or the call is refused with
    [PermissionError] and the file left alone. *)
Definition open_write (path : string) : io unit :=
  λ w, if decide (path ∈ unwritable w)
       then (Raised ("[Errno 13] Permission denied: " +:+ Repr.of_str path), w)
       else (Returned tt,
             World (stdout w) (<[path := EmptyString]> (files w)) (unwritable w)).

(** [f.write(text)] on the file opened at [path]. *)
Definition file_write (path text : string) : io unit :=
  λ w, (Returned tt,
        World (stdout w)
              (<[path := default EmptyString (files w !! path) +:+ text]> (files w))
              (unwritable w)).

(** ** The limit on conversions between [int] and [str]

    CPython (3.11, default settings) refuses to convert a string of more
    than 4300 digits to an [int], and an [int] of more than 4300 decimal
    digits, that is of absolute value at least [10 ^ 4300], to a string;
    both raise [ValueError]. *)

Definition MAX_STR_DIGITS : nat := 4300.

Definition LIMIT_ADVICE : string :=
  "; use sys.set_int_max_str_digits() to increase the limit".

Definition STR_TO_INT_ERROR (digits : nat) : string :=
  "Exceeds the limit (4300 digits) for integer string conversion: value has "
  +:+ Repr.of_int (N.of_nat digits) +:+ " digits" +:+ LIMIT_ADVICE.

Definition INT_TO_STR_ERROR : string :=
  "Exceeds the limit (4300 digits) for integer string conversion"
  +:+ LIMIT_ADVICE.

(** The least natural number that has more than 4300 digits. *)
Definition INT_STR_BOUND : N := (10 ^ 4300)%N.

(** [int(ds)] for a run of decimal digits. *)
Definition int_of_digits (ds : string) : outcome N :=
  if (MAX_STR_DIGITS <? String.length ds)%nat
  then Raised (STR_TO_INT_ERROR (String.length ds))
  else Returned (Py.int ds).

(** ** Python values, for the code that walks over dicts and lists

    [main] of [src/main.py] and [QAAgents._format_test_plan_context] of
    [src/agents.py] subscript and iterate whatever value they are given.
    The values met there are [None], strings, integers, lists and dicts
    with string keys (kept in insertion order). *)

#[local] Set Warnings "-register-all".

Inductive pyvalue :=
| PNone
| PStr (s : string)
| PInt (n : Z)
| PList (items : list pyvalue)
| PDict (items : list (string * pyvalue)).

Module Value.

(** [repr(v)]; the items of a list and the entries of a dict are taken in
    order, and the first conversion that fails ends the call. *)
Fixpoint repr (v : pyvalue) : outcome string :=
  match v with
  | PNone => Returned "None"
  | PStr s => Returned (Repr.of_str s)
  | PInt n =>
      if (INT_STR_BOUND <=? Z.abs_N n)%N then Raised INT_TO_STR_ERROR
      else if n <? 0 then Returned ("-" +:+ Repr.of_int (Z.abs_N n))
      else Returned (Repr.of_int (Z.to_N n))
  | PList items =>
      obind (all_outcomes repr items) (λ rs, Returned (Repr.of_list rs))
  | PDict items =>
      obind (all_outcomes
               (λ kv, obind (repr (snd kv)) (λ r, Returned (fst kv, r)))
               items)
            (λ rs, Returned (Repr.of_dict rs))
  end.

(** [str(v)], which is also [format(v, "")] inside an f-string. *)
Definition str (v : pyvalue) : outcome string :=
  match v with
  | PStr s => Returned s
  | _ => repr v
  end.

(** [bool(v)] *)
Definition truthy (v : pyvalue) : bool :=
  match v with
  | PNone => false
  | PStr s => negb (String.eqb s "")
  | PInt n => negb (n =? 0)
  | PList items => match items with [] => false | _ => true end
  | PDict items => match items with [] => false | _ => true end
  end.

(** [type(v).__name__] *)
Definition type_name (v : pyvalue) : string :=
  match v with
  | PNone => "NoneType"
  | PStr _ => "str"
  | PInt _ => "int"
  | PList _ => "list"
  | PDict _ => "dict"
  end.

Fixpoint chars (s : string) : list pyvalue :=
  match s with
  | EmptyString => []
  | String c s' => PStr (String c "") :: chars s'
  end.

Fixpoint lookup (key : string) (items : list (string * pyvalue))
  : option pyvalue :=
  match items with
  | [] => None
  | (k, v) :: rest => if String.eqb k key then Some v else lookup key rest
  end.

(** [v[key]] for a string [key]; the exception carries [str(e)] as
    CPython 3.11 words it. *)
Definition getitem (v : pyvalue) (key : string) : outcome pyvalue :=
  match v with
  | PDict items =>
      match lookup key items with
      | Some x => Returned x
      | None => Raised (Repr.of_str key)
      end
  | PStr _ => Raised "string indices must be integers, not 'str'"
  | PList _ => Raised "list indices must be integers or slices, not str"
  | _ => Raised ("'" +:+ type_name v +:+ "' object is not subscriptable")
  end.

(** The items [for x in v] goes through: the items of a list, the keys of
    a dict, the characters of a string. *)
Definition iterate (v : pyvalue) : outcome (list pyvalue) :=
  match v with
  | PList items => Returned items
  | PDict items => Returned (List.map (λ kv, PStr (fst kv)) items)
  | PStr s => Returned (chars s)
  | _ => Raised ("'" +:+ type_name v +:+ "' object is not iterable")
  end.

(** The strings of [items], or the index and value of the first item that
    is not a string. *)
Fixpoint strings_from (i : nat) (items : list pyvalue)
  : list string + nat * pyvalue :=
  match items with
  | [] => inl []
  | PStr s :: rest =>
      match strings_from (S i) rest with
      | inl l => inl (s :: l)
      | inr bad => inr bad
      end
  | v :: _ => inr (i, v)
  end.

Fixpoint concat_with (sep : string) (parts : list string) : string :=
  match parts with
  | [] => EmptyString
  | [x] => x
  | x :: rest => x +:+ sep +:+ concat_with sep rest
  end.

(** [sep.join(v)] *)
Definition join (sep : string) (v : pyvalue) : outcome string :=
  match iterate v with
  | Raised _ | Interrupted _ => Raised "can only join an iterable"
  | Returned items =>
      match strings_from 0 items with
      | inl parts => Returned (concat_with sep parts)
      | inr (i, bad) =>
          Raised ("sequence item " +:+ Repr.of_int (N.of_nat i)
                  +:+ ": expected str instance, " +:+ type_name bad
                  +:+ " found")
      end
  end.

End Value.

(** The dict a test case of the fallback parser is. *)
Definition case_to_py (c : TestCase.t) : pyvalue :=
  PDict [ ("test_case_number", PInt (Z.of_N (TestCase.test_case_number c)));
          ("title", PStr (TestCase.title c));
          ("objective", PStr (TestCase.objective c));
          ("preconditions", PStr (TestCase.preconditions c));
          ("steps", PList (List.map PStr (TestCase.steps c)));
          ("expected_results", PStr (TestCase.expected_results c));
          ("priority", PStr (TestCase.priority c));
          ("status", PStr (TestCase.status c)) ].

(** The dict [generate_test_plan] returns. *)
Definition record_to_py (r : test_plan_record) : pyvalue :=
  match r with
  | RawPlan text => PDict [ ("test_plan", PStr text) ]
  | StructuredPlan p =>
      PDict [ ("objective", PStr (Plan.objective p));
              ("scope", PStr (Plan.scope p));
              ("testing_strategy", PStr (Plan.testing_strategy p));
              ("test_environment", PStr (Plan.test_environment p));
              ("schedule", PStr (Plan.schedule p));
              ("test_cases", PList (List.map case_to_py (Plan.test_cases p)));
              ("risk_assessment", PStr (Plan.risk_assessment p)) ]
  end.

(** ** The fallback parser with the conversion as CPython performs it *)

(** Lines 137-146 once [int] has returned [number]. *)
Definition case_opened (number : N) (line digits : string) : TestCase.t :=
  TestCase.Build
    number
    (if Py.contains ":" line then Py.strip (Py.last (Py.split line ":"))
     else "Test Case " +:+ digits)
    "" "" [] "" "Medium" "Draft".

(** The body of [for line in lines], lines 131-161. *)
Definition checked_line (content : string) (st : parser_state) (line : string)
  : outcome parser_state :=
  obind
    (match Re.search_test_case line with
     | Some digits =>
         if Py.contains "Objective:" content then
           let cases := match st.2 with
                        | Some cur => st.1 ++ [cur]
                        | None => st.1
                        end in
           obind (int_of_digits digits) (λ number,
             Returned (cases, Some (case_opened number line digits)))
         else Returned st
     | None => Returned st
     end)
    (λ st', Returned (st'.1, extract_field line <$> st'.2)).

(** A loop whose body can raise. *)
Fixpoint fold_outcome {S A} (body : S → A → outcome S) (st : S)
    (items : list A) : outcome S :=
  match items with
  | [] => Returned st
  | x :: rest => obind (body st x) (λ st', fold_outcome body st' rest)
  end.

(** The body of [for msg in messages]. *)
Definition checked_message (st : parser_state) (msg : message)
  : outcome parser_state :=
  let content := get_content msg in
  fold_outcome (checked_line content) st (Py.split content NL).

(** Lines 113-167 of [_emergency_test_plan_processing]. *)
Definition emergency_checked (messages : list message) : outcome Plan.t :=
  obind (fold_outcome checked_message ([], None) messages) (λ st,
    let cases := match st.2 with
                 | Some cur => st.1 ++ [cur]
                 | None => st.1
                 end in
    Returned (Plan.Build TBD TBD TBD TBD TBD cases TBD)).

(** ** The generator *)

(** [s.endswith(p)] *)
Definition endswith (s p : string) : bool :=
  (String.length p <=? String.length s)%nat
  && String.eqb (Py.drop (String.length s - String.length p) s) p.

(** [os.path.join(a, b)] of [posixpath]. *)
Definition path_join (a b : string) : string :=
  if Py.startswith b "/" then b
  else if String.eqb a "" || endswith a "/" then a +:+ b
  else a +:+ "/" +:+ b.

(** The part of [self] the modelled methods read. *)
Record generator := Generator { output_folder : string }.

(** What [initiate_chat] can end with, other than returning: an exception
    of class [Exception], or one outside it (the user's Ctrl-C at
    the proxy's prompt is a [KeyboardInterrupt]); the text is [str(e)]. *)
Inductive failure :=
| ChatError (e : string)
| ChatInterrupt (e : string).

(** The outcome of [initiate_chat]: what [groupchat.messages] holds when it
    stops, and how it failed, if it did. *)
Record chat_outcome := Chat {
  transcript : list message;
  chat_error : option failure
}.

Definition initiate_chat (chat : chat_outcome) : io unit :=
  match chat_error chat with
  | Some (ChatError e) => raise e
  | Some (ChatInterrupt e) => lift (Interrupted e)
  | None => ret tt
  end.

Section Methods.
Local Open Scope io_scope.

Definition _extract_test_plan_content (messages : list message)
  : io test_plan_record :=
  print "Extracting test plan content..." ;;
  match scan_reversed (rev messages) with
  | Some text => ret (RawPlan text)
  | None =>
      print "No structured test plan found in the messages." ;;
      ret (RawPlan NO_PLAN)
  end.

Definition _process_test_plan_results (messages : list message)
  : io test_plan_record :=
  print "Processing test plan results..." ;;
  _extract_test_plan_content messages.

Definition _emergency_test_plan_processing (messages : list message)
  : io test_plan_record :=
  print "Attempting emergency test plan processing..." ;;
  test_plan <- lift (emergency_checked messages) ;;
  ret (StructuredPlan test_plan).

(** The text the file holds once [_save_test_plan_to_file] has returned. *)
Definition rendering (test_plan : test_plan_record) : string :=
  match test_plan with
  | RawPlan text => text
  | StructuredPlan p =>
      ("TEST PLAN:" +:+ NL) +:+ Repr.plan p +:+ (NL +:+ "END OF TEST PLAN")
  end.

Definition _save_test_plan_to_file (self : generator)
    (test_plan : test_plan_record) (file_name : string) : io unit :=
  let output_path := path_join (output_folder self) file_name in
  print ("Saving test plan to " +:+ output_path +:+ "...") ;;
  open_write output_path ;;
  match test_plan with
  | RawPlan text => file_write output_path text
  | StructuredPlan _ =>
      file_write output_path ("TEST PLAN:" +:+ NL) ;;
      text <- lift (Value.str (record_to_py test_plan)) ;;
      file_write output_path text ;;
      file_write output_path (NL +:+ "END OF TEST PLAN")
  end ;;
  print ("Test plan saved successfully at " +:+ output_path +:+ "!").

Definition generate_test_plan (self : generator) (chat : chat_outcome)
    (output_file_name : string) : io test_plan_record :=
  print (NL +:+ "Generating test plan...") ;;
  try_except
    (initiate_chat chat ;;
     test_plan <- _process_test_plan_results (transcript chat) ;;
     _save_test_plan_to_file self test_plan output_file_name ;;
     ret test_plan)
    (λ e,
     print ("Error generating test plan: " +:+ e) ;;
     test_plan <- _emergency_test_plan_processing (transcript chat) ;;
     _save_test_plan_to_file self test_plan output_file_name ;;
     ret test_plan).

End Methods.

(** ** The caller: [main] of [src/main.py] *)

Section Callers.
Local Open Scope io_scope.

(** [for x in items: body(x)] *)
Fixpoint for_each {A} (items : list A) (body : A → io unit) : io unit :=
  match items with
  | [] => ret tt
  | x :: rest => body x ;; for_each rest body
  end.

(** [s * n] *)
Fixpoint repeat_string (s : string) (n : nat) : string :=
  match n with
  | O => EmptyString
  | S n' => s +:+ repeat_string s n'
  end.

Definition REPORT_PATH : string := "test_plan_output/test_plan.txt".

(** One replacement field [{v[key]}] of an f-string: the subscript, then
    the formatting of what it gave. *)
Definition field (v : pyvalue) (key : string) : io string :=
  x <- lift (Value.getitem v key) ;;
  lift (Value.str x).

(** The body of the printing loop of [main]. *)
Definition report_case (test_case : pyvalue) : io unit :=
  number <- field test_case "test_case_number" ;;
  title <- field test_case "title" ;;
  print (NL +:+ "Test Case " +:+ number +:+ ": " +:+ title) ;;
  print (repeat_string "-" 50) ;;
  objective <- field test_case "objective" ;;
  print ("Objective: " +:+ objective) ;;
  preconditions <- field test_case "preconditions" ;;
  print ("Preconditions: " +:+ preconditions) ;;
  print "Steps:" ;;
  steps <- lift (Value.getitem test_case "steps") ;;
  items <- lift (Value.iterate steps) ;;
  for_each items (λ step, text <- lift (Value.str step) ;; print ("- " +:+ text)) ;;
  expected <- field test_case "expected_results" ;;
  print ("Expected Results: " +:+ expected) ;;
  priority <- field test_case "priority" ;;
  print ("Priority: " +:+ priority) ;;
  status <- field test_case "status" ;;
  print ("Status: " +:+ status).

(** The body of the writing loop of [main]. *)
Definition write_case (path : string) (test_case : pyvalue) : io unit :=
  number <- field test_case "test_case_number" ;;
  title <- field test_case "title" ;;
  file_write path
    (NL +:+ "Test Case " +:+ number +:+ ": " +:+ title +:+ NL) ;;
  file_write path (repeat_string "-" 50 +:+ NL) ;;
  objective <- field test_case "objective" ;;
  file_write path ("Objective: " +:+ objective +:+ NL) ;;
  preconditions <- field test_case "preconditions" ;;
  file_write path ("Preconditions: " +:+ preconditions +:+ NL) ;;
  file_write path ("Steps:" +:+ NL) ;;
  steps <- lift (Value.getitem test_case "steps") ;;
  items <- lift (Value.iterate steps) ;;
  for_each items
    (λ step, text <- lift (Value.str step) ;;
             file_write path ("- " +:+ text +:+ NL)) ;;
  expected <- field test_case "expected_results" ;;
  file_write path ("Expected Results: " +:+ expected +:+ NL) ;;
  priority <- field test_case "priority" ;;
  file_write path ("Priority: " +:+ priority +:+ NL) ;;
  status <- field test_case "status" ;;
  file_write path ("Status: " +:+ status +:+ NL +:+ NL).

(** What [main] does with the value [generate_test_plan] handed back. *)
Definition report (test_plan : pyvalue) : io unit :=
  print (NL +:+ "Generated Test Plan:") ;;
  cases <- lift (Value.iterate test_plan) ;;
  for_each cases report_case ;;
  print (NL +:+ "Saving test plan to file...") ;;
  open_write REPORT_PATH ;;
  cases <- lift (Value.iterate test_plan) ;;
  for_each cases (write_case REPORT_PATH) ;;
  print (NL +:+ "Generating test case documentation...").

(** [main], from the point where the configuration is read and the agents
    are built (both external, taken to succeed): the generator is made
    with its default folder ["output"] and called with its default file
    name ["test_plan.txt"]. *)
Definition main (chat : chat_outcome) : io unit :=
  print "Generating test plan..." ;;
  test_plan <- generate_test_plan (Generator "output") chat "test_plan.txt" ;;
  report (record_to_py test_plan).

(** ** The agents' context: [QAAgents._format_test_plan_context] *)

(** The five strings one test case adds to [context_parts]. *)
Definition context_of_case (test_case : pyvalue) : io (list string) :=
  id <- field test_case "id" ;;
  title <- field test_case "title" ;;
  objective <- field test_case "objective" ;;
  preconditions <- field test_case "preconditions" ;;
  steps <- lift (Value.getitem test_case "steps") ;;
  joined <- lift (Value.join ", " steps) ;;
  expected <- field test_case "expected_results" ;;
  ret [ NL +:+ "Test Case " +:+ id +:+ ": " +:+ title;
        "Objective: " +:+ objective;
        "Preconditions: " +:+ preconditions;
        "Steps: " +:+ joined;
        "Expected Results: " +:+ expected ].

(** The loop over [self.test_plan], from the parts gathered so far. *)
Fixpoint context_parts (cases : list pyvalue) (parts : list string)
  : io (list string) :=
  match cases with
  | [] => ret parts
  | test_case :: rest =>
      more <- context_of_case test_case ;;
      context_parts rest (parts ++ more)
  end.

Definition _format_test_plan_context (test_plan : pyvalue) : io string :=
  if negb (Value.truthy test_plan) then ret EmptyString
  else
    cases <- lift (Value.iterate test_plan) ;;
    parts <- context_parts cases ["Complete Test Plan:"] ;;
    ret (Value.concat_with NL parts).

End Callers.

(** ** Vocabulary of the specification *)

(** [sub] occurs in [s] at position [i] and at no earlier position. *)
Definition first_occurrence (sub s : string) (i : nat) : Prop :=
  String.prefix sub (Py.drop i s) = true
  ∧ ∀ k, (k < i)%nat → String.prefix sub (Py.drop k s) = false.

(** The text holds the start marker and, later, the end marker. *)
Definition delimited (c : string) : Prop :=
  ∃ a b d, c = a +:+ START_MARKER +:+ b +:+ END_MARKER +:+ d.

(** Both markers occur somewhere in the text. *)
Definition has_both_markers (c : string) : bool :=
  Py.contains START_MARKER c && Py.contains END_MARKER c.

(** The block of a turn: from the first start marker up to the first end
    marker, trimmed. *)
Definition block_of (c : string) : string :=
  Py.strip (Py.slice c (Py.find c START_MARKER) (Py.find c END_MARKER)).

(** The extractor reports its soft miss on these messages. *)
Definition soft_miss (messages : list message) : Prop :=
  scan_reversed (rev messages) = None.

(** A message with only a ["content"] entry. *)
Definition turn (text : string) : message := {[ "content" := text ]}.

Definition empty_world : world := World [] ∅ ∅.

(** A turn whose end marker comes before its start marker. *)
Definition end_before_start : string := "END OF TEST PLAN TEST PLAN:".


Definition FALLBACK_BANNER : string :=
  "Attempting emergency test plan processing...".


(** The lines a run prints when the chat raises [e]. *)
Definition chat_failure_log (e path : string) : list string :=
  [ NL +:+ "Generating test plan...";
    "Error generating test plan: " +:+ e;
    FALLBACK_BANNER;
    "Saving test plan to " +:+ path +:+ "...";
    "Test plan saved successfully at " +:+ path +:+ "!" ].

(** Three turns: an early complete draft, the final plan, and a later turn
    with a start marker only. *)
Definition draft_turn : message := turn "TEST PLAN: draft END OF TEST PLAN".
Definition final_turn : message :=
  turn "intro TEST PLAN:  final  END OF TEST PLAN bye".

(** The turn of the specification's worked example. *)
Definition login_text : string :=
  "Test Case 3: Login works" +:+ NL +:+
  "Objective: verify login" +:+ NL +:+
  "Preconditions: user exists" +:+ NL +:+
  "- step one" +:+ NL +:+
  "- step two" +:+ NL +:+
  "Expected Results: dashboard shown" +:+ NL +:+
  "Priority: High" +:+ NL +:+
  "Status: Draft".

Definition login_case : TestCase.t :=
  TestCase.Build 3 "Login works" "verify login" "user exists"
    ["- step one"; "- step two"] "dashboard shown" "High" "Draft".

(** The cases of a loop state, closed ones first, the open one last. *)
Definition all_cases (st : parser_state) : list TestCase.t :=
  st.1 ++ option_list st.2.

(** A heading line: it matches [Test Case <digits>] and its turn's text
    holds [Objective:].  The result is the matched digits. *)
Definition heading_of (content line : string) : option string :=
  if Py.contains "Objective:" content then Re.search_test_case line else None.

(** The numbers written in the heading lines of a transcript, turn after
    turn and line after line. *)
Definition heading_numbers (messages : list message) : list N :=
  messages ≫= λ msg,
    Py.int <$> omap (heading_of (get_content msg))
                    (Py.split (get_content msg) NL).

(** Identifiers never decrease along the sequence. *)
Definition monotonic (ids : list N) : Prop :=
  ∀ i j a b, (i < j)%nat → ids !! i = Some a → ids !! j = Some b → (a ≤ b)%N.

(** A turn with two headings whose numbers go down. *)
Definition descending_text : string :=
  "Objective: regression" +:+ NL +:+ "Test Case 5: later id first" +:+ NL +:+
  "Test Case 2: earlier id second".

(** All the lines of a transcript. *)
Definition transcript_lines (messages : list message) : list string :=
  messages ≫= λ msg, Py.split (get_content msg) NL.

Definition valid_priority (v : string) : Prop := v ∈ ["Low"; "Medium"; "High"].
Definition valid_status (v : string) : Prop :=
  v ∈ ["Draft"; "Ready for Execution"; "Completed"].

(** A case whose priority and status lines hold other words. *)
Definition urgent_text : string :=
  "Test Case 1: Checkout" +:+ NL +:+ "Objective: pay" +:+ NL +:+
  "Priority: Urgent" +:+ NL +:+ "Status: Blocked".

(** The character [c] occurs in [s]. *)
Fixpoint has_char (c : ascii) (s : string) : bool :=
  match s with
  | EmptyString => false
  | String a s' => Ascii.eqb a c || has_char c s'
  end.




(** The text holds no line break. *)
Definition newline_free (s : string) : Prop := has_char "010" s = false.

(** A reparsed case carries nothing but a number and a title. *)
Definition bare_case (c : TestCase.t) : Prop :=
  TestCase.objective c = ""
  ∧ TestCase.preconditions c = ""
  ∧ TestCase.steps c = []
  ∧ TestCase.expected_results c = ""
  ∧ TestCase.priority c = "Medium"
  ∧ TestCase.status c = "Draft".

(** The structured record of the worked example. *)
Definition login_plan : Plan.t :=
  Plan.Build TBD TBD TBD TBD TBD [login_case] TBD.

(** ** Vocabulary of the further properties *)

(** [s[:n]] for a natural [n]. *)
Fixpoint take_chars (n : nat) (s : string) : string :=
  match n, s with
  | O, _ => EmptyString
  | S _, EmptyString => EmptyString
  | S n', String c s' => String c (take_chars n' s')
  end.

(** No turn of the transcript holds both markers. *)
Definition no_block (messages : list message) : Prop :=
  Forall (λ m, has_both_markers (get_content m) = false) messages.

(** A message with no ["content"] entry and one with other entries. *)
Definition bare_message : message := {[ "role" := "assistant" ]}.
Definition named_turn (text : string) : message :=
  {[ "content" := text; "role" := "user"; "name" := "user_proxy" ]}.

(** Every step of the case is a trimmed line of [lines] that begins with
    a dash or with digits and a dot. *)
Definition steps_traced (lines : list string) (c : TestCase.t) : Prop :=
  Forall (λ step, ∃ line, line ∈ lines
                          ∧ step = Py.strip line
                          ∧ (Py.startswith step "-" = true
                             ∨ Re.match_numbering step = true))
         (TestCase.steps c).

(** Number and title of a case. *)
Definition heading_key (c : TestCase.t) : N * string :=
  (TestCase.test_case_number c, TestCase.title c).

(** A transcript in which a heading appears without any objective. *)
Definition casual_mention : string :=
  "We should revisit Test Case 12 before release.".

(** No whitespace at either end. *)
Definition trimmed (s : string) : Prop := Py.strip s = s.

(** Every text of the case is trimmed. *)
Definition trimmed_case (c : TestCase.t) : Prop :=
  trimmed (TestCase.title c)
  ∧ trimmed (TestCase.objective c)
  ∧ trimmed (TestCase.preconditions c)
  ∧ Forall trimmed (TestCase.steps c)
  ∧ trimmed (TestCase.expected_results c)
  ∧ trimmed (TestCase.priority c)
  ∧ trimmed (TestCase.status c).

(** The text is empty or begins with a character that is not a space. *)
Definition head_kept (s : string) : Prop :=
  match s with
  | EmptyString => True
  | String c _ => Py.isspace c = false
  end.

(** A case opened in one turn and completed in the next. *)
Definition opening_turn : message :=
  turn ("Test Case 7: Export" +:+ NL +:+ "Objective: export a report").
Definition closing_turn : message :=
  turn ("- open the menu" +:+ NL +:+ "Priority: Low" +:+ NL +:+
        "Test Case 8: Import" +:+ NL +:+ "Objective: import a report").

(** A plan in the shape the agents' context expects. *)
Definition context_plan : pyvalue :=
  PList [ PDict [ ("id", PInt 3); ("title", PStr "Login works");
                  ("objective", PStr "verify login");
                  ("preconditions", PStr "user exists");
                  ("steps", PList [PStr "step one"; PStr "step two"]);
                  ("expected_results", PStr "dashboard shown") ] ].

Definition TYPE_ERROR : string := "string indices must be integers, not 'str'".

(** [format(v, "")] returns: [v] holds no integer of more than 4300
    digits. *)
Definition formattable (v : pyvalue) : Prop :=
  ∃ text, Value.str v = Returned text.

(** The dict has [key], with a value that can be formatted. *)
Definition has_text (items : list (string * pyvalue)) (key : string) : Prop :=
  ∃ x, Value.lookup key items = Some x ∧ formattable x.

(** A case the agents' context can be built from: a dict that has the six
    keys the formatter reads, with values it can format and steps that
    [", ".join] accepts. *)
Definition complete_case (c : pyvalue) : Prop :=
  ∃ items steps,
    c = PDict items
    ∧ has_text items "id"
    ∧ has_text items "title"
    ∧ has_text items "objective"
    ∧ has_text items "preconditions"
    ∧ Value.lookup "steps" items = Some steps
    ∧ (∃ joined, Value.join ", " steps = Returned joined)
    ∧ has_text items "expected_results".

(** ** Vocabulary of the conversion limit *)

(** The digits of the heading lines of a transcript, in order. *)
Definition heading_digits (messages : list message) : list string :=
  messages ≫= λ msg,
    omap (heading_of (get_content msg)) (Py.split (get_content msg) NL).

(** A run of digits [int] refuses. *)
Definition over_limit (digits : string) : bool :=
  (MAX_STR_DIGITS <? String.length digits)%nat.

(** The first heading whose digits [int] refuses. *)
Definition first_long_heading (messages : list message) : option string :=
  List.find over_limit (heading_digits messages).

(** How a run ends when its file can be opened: with the extractor's
    record if the chat returned; with the record of the fallback parser,
    or the exception of its conversion, if the chat raised an
    [Exception]; with the chat's exception if that is outside
    [Exception]. *)
Definition expected_outcome (chat : chat_outcome)
  : outcome test_plan_record :=
  match chat_error chat with
  | None => Returned (extract_value (transcript chat))
  | Some (ChatError _) =>
      match first_long_heading (transcript chat) with
      | None => Returned (StructuredPlan (emergency_value (transcript chat)))
      | Some digits => Raised (STR_TO_INT_ERROR (String.length digits))
      end
  | Some (ChatInterrupt e) => Interrupted e
  end.

(** A plan whose case numbers [str] accepts. *)
Definition printable (p : Plan.t) : Prop :=
  Forall (λ c, (TestCase.test_case_number c < INT_STR_BOUND)%N)
         (Plan.test_cases p).

(** A heading of 4301 digits, in a turn with an objective and no marker. *)
Definition long_digits : string := repeat_string "7" 4301.
Definition long_heading_turn : message :=
  turn ("Test Case " +:+ long_digits +:+ ": Soak" +:+ NL +:+
        "Objective: run for a week").

(** A turn with a complete block after an early end marker. *)
Definition early_end_text : string :=
  "END OF TEST PLAN x TEST PLAN: body END OF TEST PLAN".

(** ** Vocabulary of the cases' own lines *)

(** The lines of a transcript in order, each with the digits of its
    heading match when it is a heading line. *)
Definition tagged_lines (messages : list message)
  : list (option string * string) :=
  messages ≫= λ msg,
    (λ line, (heading_of (get_content msg) line, line))
      <$> Py.split (get_content msg) NL.

(** The lines up to the next heading line. *)
Fixpoint leading_lines (tagged : list (option string * string))
  : list string :=
  match tagged with
  | (None, line) :: rest => line :: leading_lines rest
  | _ => []
  end.

(** The lines of each case: its heading line, then the lines that follow
    up to the next heading line, turn boundaries notwithstanding.  The
    lines before the first heading belong to no case. *)
Fixpoint case_lines (tagged : list (option string * string))
  : list (list string) :=
  match tagged with
  | [] => []
  | (Some _, line) :: rest => (line :: leading_lines rest) :: case_lines rest
  | (None, _) :: rest => case_lines rest
  end.

(** What a field holds after the lines of a case: the trimmed text after
    the last [label] of the last line that starts, once trimmed, with
    [label]; [default] when no line does. *)
Definition last_stated (label default : string) (lines : list string)
  : string :=
  from_option
    (λ line, Py.strip (Py.last (Py.split line label)))
    default
    (last (List.filter (λ line, Py.startswith (Py.strip line) label) lines)).

(** A case after the field tests of some lines. *)
Definition fill_case (c : TestCase.t) (lines : list string) : TestCase.t :=
  foldl (λ c line, extract_field line c) c lines.

(** The cases the tagged lines open, each filled by its own lines. *)
Fixpoint opened_cases (tagged : list (option string * string))
  : list TestCase.t :=
  match tagged with
  | [] => []
  | (Some digits, line) :: rest =>
      fill_case (new_test_case line digits) (line :: leading_lines rest)
      :: opened_cases rest
  | (None, _) :: rest => opened_cases rest
  end.

(** One line, read through its tag. *)
Definition step_tagged (st : parser_state) (t : option string * string)
  : parser_state :=
  match t.1 with
  | Some digits =>
      (all_cases st, Some (extract_field t.2 (new_test_case t.2 digits)))
  | None => (st.1, extract_field t.2 <$> st.2)
  end.

(** Two cases whose priority and status lines differ. *)
Definition two_priorities_text : string :=
  "Test Case 1: Pay" +:+ NL +:+ "Objective: pay" +:+ NL +:+
  "Priority: Low" +:+ NL +:+ "Priority: High" +:+ NL +:+
  "Test Case 2: Refund" +:+ NL +:+ "Status: Completed".

(** The record of [two_priorities_text]. *)
Definition two_priorities_plan : Plan.t :=
  Plan.Build TBD TBD TBD TBD TBD
    [ TestCase.Build 1 "Pay" "pay" "" [] "" "High" "Draft";
      TestCase.Build 2 "Refund" "" "" [] "" "Medium" "Completed" ]
    TBD.

(** [int] from a running value: the loop inside [Py.int]. *)
Fixpoint int_from (acc : N) (s : string) : N :=
  match s with
  | EmptyString => acc
  | String c s' => int_from (10 * acc + (N_of_ascii c - 48))%N s'
  end.

(** ** String lemmas *)

Lemma prefix_empty (s : string) : String.prefix "" s = true.
Proof. by destruct s. Qed.

Lemma append_nil_l (s : string) : "" +:+ s = s.
Proof. reflexivity. Qed.

Lemma append_cons (c : ascii) (a b : string) :
  String c a +:+ b = String c (a +:+ b).
Proof. reflexivity. Qed.

Lemma append_assoc (a b c : string) : (a +:+ b) +:+ c = a +:+ (b +:+ c).
Proof.
  induction a as [|x a IH]; [done |].
  by rewrite !append_cons, IH.
Qed.

Lemma prefix_append (p s : string) : String.prefix p (p +:+ s) = true.
Proof.
  induction p as [|x p IH]; [apply prefix_empty |].
  rewrite append_cons. simpl.
  destruct (ascii_dec x x); [done | congruence].
Qed.

Lemma prefix_decompose (p s : string) :
  String.prefix p s = true → ∃ r, s = p +:+ r.
Proof.
  revert s. induction p as [|a p IH]; intros s H; [by exists s |].
  destruct s as [|b s]; simpl in H; [done |].
  destruct (ascii_dec a b) as [->|]; [|done].
  destruct (IH s H) as [r ->]. by exists r.
Qed.

Lemma find_nat_unfold (sub s : string) :
  Py.find_nat sub s =
    if String.prefix sub s then Some O
    else match s with
         | EmptyString => None
         | String _ s' => S <$> Py.find_nat sub s'
         end.
Proof. by destruct s. Qed.

Lemma find_nat_first (sub s : string) (i : nat) :
  Py.find_nat sub s = Some i → first_occurrence sub s i.
Proof.
  revert i. induction s as [|c s IH]; intros i; rewrite find_nat_unfold.
  - destruct (String.prefix sub "") eqn:E; [|done].
    intros [= <-]. split; [done | lia].
  - destruct (String.prefix sub (String c s)) eqn:E.
    + intros [= <-]. split; [done | lia].
    + destruct (Py.find_nat sub s) as [j|] eqn:F; [|done].
      intros [= <-]. destruct (IH j eq_refl) as [H1 H2].
      split; [done |]. intros [|k] Hk; [done |]. apply H2. lia.
Qed.

Lemma first_occurrence_unique (sub s : string) (i j : nat) :
  first_occurrence sub s i → first_occurrence sub s j → i = j.
Proof.
  intros [Hi Hi'] [Hj Hj'].
  destruct (Nat.lt_trichotomy i j) as [H|[H|H]]; [|done|].
  - specialize (Hj' i H). congruence.
  - specialize (Hi' j H). congruence.
Qed.

Lemma contains_occurrence (sub a b : string) :
  Py.contains sub (a +:+ sub +:+ b) = true.
Proof.
  unfold Py.contains.
  induction a as [|c a IH]; rewrite find_nat_unfold.
  - by rewrite append_nil_l, prefix_append.
  - destruct (String.prefix sub _); [done |].
    rewrite append_cons. by destruct (Py.find_nat sub (a +:+ sub +:+ b)).
Qed.

Lemma contains_find (sub s : string) :
  Py.contains sub s = true →
  ∃ i, Py.find_nat sub s = Some i ∧ Py.find s sub = Z.of_nat i.
Proof.
  unfold Py.contains, Py.find.
  destruct (Py.find_nat sub s) as [i|]; [eauto | done].
Qed.

Lemma not_contains_find (sub s : string) :
  Py.contains sub s = false → Py.find s sub = -1.
Proof.
  unfold Py.contains, Py.find. by destruct (Py.find_nat sub s).
Qed.

Lemma substring_split (n m : nat) (s : string) :
  (n + m ≤ String.length s)%nat →
  ∃ a b, s = a +:+ String.substring n m s +:+ b
         ∧ String.length a = n
         ∧ String.length (String.substring n m s) = m.
Proof.
  revert n m. induction s as [|c s IH]; intros n m Hlen; simpl in Hlen.
  - assert (n = 0 ∧ m = 0)%nat as [-> ->] by lia. by exists "", "".
  - destruct n as [|n].
    + destruct m as [|m]; [by exists "", (String c s) |].
      destruct (IH 0%nat m) as (a & b & Hs & Ha & Hm); [lia |].
      destruct a; [|done]. rewrite append_nil_l in Hs.
      exists "", b. simpl. rewrite append_nil_l, append_cons.
      by rewrite <- Hs, Hm.
    + destruct (IH n m) as (a & b & Hs & Ha & Hm); [lia |].
      exists (String c a), b. simpl. rewrite append_cons.
      by rewrite <- Hs, Ha.
Qed.

(** [s[i:j]] for [i <= j <= len(s)] is the [j - i] characters of [s] that
    follow its first [i] characters; with [j <= i] it is empty. *)
Lemma slice_between (s : string) (i j : nat) :
  (i ≤ j ≤ String.length s)%nat →
  ∃ a b, s = a +:+ Py.slice s (Z.of_nat i) (Z.of_nat j) +:+ b
         ∧ String.length a = i
         ∧ String.length (Py.slice s (Z.of_nat i) (Z.of_nat j)) = (j - i)%nat.
Proof.
  intros Hij. unfold Py.slice.
  replace (Z.of_nat i <? 0) with false by (symmetry; apply Z.ltb_ge; lia).
  replace (Z.of_nat j <? 0) with false by (symmetry; apply Z.ltb_ge; lia).
  rewrite !Z.min_l by lia.
  destruct (Z.of_nat i <? Z.of_nat j) eqn:E.
  - apply Z.ltb_lt in E.
    replace (Z.to_nat (Z.of_nat j - Z.of_nat i)) with (j - i)%nat by lia.
    rewrite Nat2Z.id. apply substring_split. lia.
  - apply Z.ltb_ge in E. assert (i = j) as -> by lia.
    destruct (substring_split j 0 s) as (a & b & Hs & Ha & _); [lia |].
    exists a, b. rewrite Nat.sub_diag.
    split; [| done]. rewrite append_nil_l.
    assert (String.substring j 0 s = "") as Hz.
    { clear. revert j. induction s as [|c s IH]; intros [|j]; simpl; auto. }
    by rewrite Hz, append_nil_l in Hs.
Qed.

Lemma slice_backwards (s : string) (i j : nat) :
  (j ≤ i)%nat → Py.slice s (Z.of_nat i) (Z.of_nat j) = "".
Proof.
  intros Hij. unfold Py.slice.
  replace (Z.of_nat i <? 0) with false by (symmetry; apply Z.ltb_ge; lia).
  replace (Z.of_nat j <? 0) with false by (symmetry; apply Z.ltb_ge; lia).
  destruct (_ <? _) eqn:E; [|done]. apply Z.ltb_lt in E. lia.
Qed.

Lemma delimited_has_both (c : string) : delimited c → has_both_markers c = true.
Proof.
  intros (a & b & d & ->). unfold has_both_markers.
  rewrite contains_occurrence, andb_true_l.
  replace (a +:+ START_MARKER +:+ b +:+ END_MARKER +:+ d)
    with ((a +:+ START_MARKER +:+ b) +:+ END_MARKER +:+ d)
    by (by rewrite !append_assoc).
  apply contains_occurrence.
Qed.

(** ** The extractor *)

Lemma extract_run (messages : list message) (w : world) :
  (_extract_test_plan_content messages w).1 = Returned (extract_value messages).
Proof.
  unfold _extract_test_plan_content, extract_value, bind, print, ret.
  simpl. by destruct (scan_reversed (rev messages)).
Qed.

Lemma scan_hit (msg : message) (rest : list message) :
  has_both_markers (get_content msg) = true →
  scan_reversed (msg :: rest) = Some (block_of (get_content msg)).
Proof.
  unfold has_both_markers. intros [Hs He]%andb_true_iff. simpl.
  rewrite Hs.
  destruct (contains_find _ _ Hs) as (i & _ & Hi).
  destruct (contains_find _ _ He) as (j & _ & Hj).
  unfold block_of. rewrite Hi, Hj.
  replace (Z.of_nat i =? -1) with false by (symmetry; apply Z.eqb_neq; lia).
  replace (Z.of_nat j =? -1) with false by (symmetry; apply Z.eqb_neq; lia).
  done.
Qed.

Lemma scan_skip (msg : message) (rest : list message) :
  has_both_markers (get_content msg) = false →
  scan_reversed (msg :: rest) = scan_reversed rest.
Proof.
  unfold has_both_markers. intros H. simpl.
  destruct (Py.contains START_MARKER (get_content msg)) eqn:Hs; [|done].
  simpl in H. rewrite (not_contains_find _ _ H).
  by rewrite andb_false_r.
Qed.

Lemma scan_skip_all (skipped rest : list message) :
  Forall (λ m, has_both_markers (get_content m) = false) skipped →
  scan_reversed (skipped ++ rest) = scan_reversed rest.
Proof.
  induction 1 as [|m l Hm _ IH]; [done |].
  simpl app. by rewrite scan_skip.
Qed.

(** The extractor returns the block of the last turn holding both markers. *)
Lemma extract_value_latest (earlier later : list message) (msg : message) :
  has_both_markers (get_content msg) = true →
  Forall (λ m, has_both_markers (get_content m) = false) later →
  extract_value (earlier ++ msg :: later) = RawPlan (block_of (get_content msg)).
Proof.
  intros Hm Hl. unfold extract_value.
  rewrite rev_app_distr. simpl rev. rewrite <- app_assoc. simpl app.
  rewrite scan_skip_all; [| by apply Forall_rev].
  by rewrite scan_hit.
Qed.

(** When no turn holds both markers the extractor reports its soft miss,
    whatever the world, and returns the sentinel. *)
Lemma soft_miss_without_markers (messages : list message) :
  Forall (λ m, has_both_markers (get_content m) = false) messages →
  soft_miss messages ∧ extract_value messages = RawPlan NO_PLAN.
Proof.
  intros H. unfold soft_miss, extract_value.
  assert (scan_reversed (rev messages) = None) as ->; [|done].
  rewrite <- (app_nil_r (rev messages)).
  rewrite scan_skip_all; [done | by apply Forall_rev].
Qed.

(** C2 (the code departs from the claim): on a turn whose end marker comes
    before its start marker the extractor finds both indices, takes the
    empty slice between them and returns an empty raw plan; it does not
    report the soft miss, and the sentinel text is not what it returns. *)
Theorem extract_end_before_start_is_empty_plan :
  Py.find end_before_start END_MARKER = 0
  ∧ Py.find end_before_start START_MARKER = 17
  ∧ _extract_test_plan_content [turn end_before_start] empty_world
    = (Returned (RawPlan ""),
       World ["Extracting test plan content..."] ∅ ∅)
  ∧ RawPlan "" ≠ RawPlan NO_PLAN.
Proof.
  split; [by vm_compute |]. split; [by vm_compute |].
  split; [by vm_compute | discriminate].
Qed.


(** C4 (the code departs from the claim): two turns that each hold a
    complete block, " draft " in the earlier and " body " in the later.
    The later turn also holds an early end marker, and the extractor
    returns an empty raw plan, not the block of the later turn. *)
Theorem extract_later_block_is_lost :
  delimited (get_content draft_turn)
  ∧ delimited early_end_text
  ∧ _extract_test_plan_content [draft_turn; turn early_end_text] empty_world
    = (Returned (RawPlan ""),
       World ["Extracting test plan content..."] ∅ ∅)
  ∧ RawPlan "" ≠ RawPlan "TEST PLAN: body".
Proof.
  split.
  { exists "", " draft ", "". by vm_compute. }
  split.
  { exists "END OF TEST PLAN x ", " body ", "". by vm_compute. }
  split; [by vm_compute | discriminate].
Qed.

(** ** The fallback parser *)

Lemma emergency_cases (messages : list message) :
  Plan.test_cases (emergency_value messages)
  = all_cases (foldl process_message ([], None) messages).
Proof.
  unfold emergency_value, all_cases. simpl.
  destruct (foldl process_message ([], None) messages) as [cases [cur|]];
    simpl; [done | by rewrite app_nil_r].
Qed.

Lemma extract_field_number (line : string) (c : TestCase.t) :
  TestCase.test_case_number (extract_field line c) = TestCase.test_case_number c.
Proof. unfold extract_field. by repeat case_match. Qed.

Lemma extract_field_title (line : string) (c : TestCase.t) :
  TestCase.title (extract_field line c) = TestCase.title c.
Proof. unfold extract_field. by repeat case_match. Qed.

(** What one line does to the cases: a heading appends a fresh case, and
    the open case, if any, takes the line's field. *)
Lemma process_line_cases (content line : string) (st : parser_state) :
  ∃ closed cur,
    all_cases st ++ option_list (new_test_case line <$> heading_of content line)
    = closed ++ option_list cur
    ∧ process_line content st line = (closed, extract_field line <$> cur).
Proof.
  unfold process_line, open_case, heading_of, all_cases.
  destruct st as [cases cur]. simpl.
  destruct (Re.search_test_case line) as [digits|] eqn:Hs.
  - destruct (Py.contains "Objective:" content); simpl.
    + exists (cases ++ option_list cur), (Some (new_test_case line digits)).
      destruct cur; simpl; [done | by rewrite !app_nil_r].
    + exists cases, cur. by rewrite app_nil_r.
  - exists cases, cur. destruct (Py.contains "Objective:" content);
      by rewrite app_nil_r.
Qed.

Lemma process_line_heading (content line digits : string) (st : parser_state) :
  heading_of content line = Some digits →
  process_line content st line
  = (all_cases st, Some (extract_field line (new_test_case line digits))).
Proof.
  unfold heading_of, process_line, open_case, all_cases.
  destruct (Py.contains "Objective:" content); [|done].
  intros ->. destruct st as [cases [cur|]]; simpl; [done |].
  by rewrite app_nil_r.
Qed.

Lemma process_line_plain (content line : string) (st : parser_state) :
  heading_of content line = None →
  process_line content st line = (st.1, extract_field line <$> st.2).
Proof.
  unfold heading_of, process_line, open_case.
  destruct (Re.search_test_case line); [|done].
  by destruct (Py.contains "Objective:" content).
Qed.

Lemma process_line_numbers (content line : string) (st : parser_state) :
  TestCase.test_case_number <$> all_cases (process_line content st line)
  = (TestCase.test_case_number <$> all_cases st)
    ++ option_list (Py.int <$> heading_of content line).
Proof.
  destruct (process_line_cases content line st) as (closed & cur & Heq & ->).
  transitivity (TestCase.test_case_number <$> (closed ++ option_list cur)).
  { unfold all_cases. simpl. rewrite !fmap_app. f_equal.
    destruct cur; simpl; [by rewrite extract_field_number | done]. }
  rewrite <- Heq, fmap_app. f_equal.
  by destruct (heading_of content line).
Qed.

Lemma process_lines_numbers (content : string) (lines : list string)
    (st : parser_state) :
  TestCase.test_case_number <$> all_cases (foldl (process_line content) st lines)
  = (TestCase.test_case_number <$> all_cases st)
    ++ (Py.int <$> omap (heading_of content) lines).
Proof.
  revert st. induction lines as [|line lines IH]; intros st; simpl.
  - by rewrite app_nil_r.
  - rewrite IH, process_line_numbers, <- app_assoc. f_equal.
    by destruct (heading_of content line).
Qed.

Lemma process_messages_numbers (messages : list message) (st : parser_state) :
  TestCase.test_case_number <$> all_cases (foldl process_message st messages)
  = (TestCase.test_case_number <$> all_cases st) ++ heading_numbers messages.
Proof.
  revert st. induction messages as [|msg messages IH]; intros st; simpl.
  - by rewrite app_nil_r.
  - rewrite IH. unfold process_message.
    by rewrite process_lines_numbers, <- app_assoc.
Qed.

(** C7 as stated fails: a turn whose headings read 5 and then 2 gives the
    identifiers 5, 2, in that order. *)
Lemma identifiers_not_monotonic :
  TestCase.test_case_number
    <$> Plan.test_cases (emergency_value [turn descending_text]) = [5; 2]%N
  ∧ ¬ monotonic (TestCase.test_case_number
                   <$> Plan.test_cases (emergency_value [turn descending_text])).
Proof.
  assert (TestCase.test_case_number
            <$> Plan.test_cases (emergency_value [turn descending_text])
          = [5; 2]%N) as -> by (by vm_compute).
  split; [done |]. intros H.
  assert (5 ≤ 2)%N; [| lia].
  apply (H 0%nat 1%nat); [lia | done | done].
Qed.

(** C7, as the code has it: the identifiers of the record are the numbers
    written in the heading lines, in the order of the turns and, within a
    turn, of the lines.  Cases are listed as they appear; the numbers
    themselves are taken from the text. *)
Theorem identifiers_follow_headings (messages : list message) :
  TestCase.test_case_number <$> Plan.test_cases (emergency_value messages)
  = heading_numbers messages.
Proof. by rewrite emergency_cases, process_messages_numbers. Qed.

(** *** The conversion of the heading digits *)

Lemma case_opened_new (line digits : string) :
  case_opened (Py.int digits) line digits = new_test_case line digits.
Proof. reflexivity. Qed.

(** One line of the loop: the conversion is refused on a heading of more
    than 4300 digits, and the line is processed otherwise. *)
Lemma checked_line_spec (content line : string) (st : parser_state) :
  checked_line content st line
  = match heading_of content line with
    | Some digits =>
        if over_limit digits
        then Raised (STR_TO_INT_ERROR (String.length digits))
        else Returned (process_line content st line)
    | None => Returned (process_line content st line)
    end.
Proof.
  unfold checked_line, process_line, open_case, heading_of.
  destruct (Re.search_test_case line) as [digits|];
    [| by destruct (Py.contains "Objective:" content)].
  destruct (Py.contains "Objective:" content); [|done].
  unfold int_of_digits, over_limit.
  by destruct (MAX_STR_DIGITS <? String.length digits)%nat.
Qed.

Lemma find_app_first {A} (f : A → bool) (l1 l2 : list A) :
  List.find f (l1 ++ l2)
  = match List.find f l1 with
    | Some x => Some x
    | None => List.find f l2
    end.
Proof.
  induction l1 as [|x l1 IH]; [done |]. simpl. by destruct (f x).
Qed.

Lemma checked_lines_spec (content : string) (lines : list string)
    (st : parser_state) :
  fold_outcome (checked_line content) st lines
  = match List.find over_limit (omap (heading_of content) lines) with
    | Some digits => Raised (STR_TO_INT_ERROR (String.length digits))
    | None => Returned (foldl (process_line content) st lines)
    end.
Proof.
  revert st. induction lines as [|line lines IH]; intros st; [done |].
  cbn [fold_outcome foldl omap list_omap]. rewrite checked_line_spec.
  destruct (heading_of content line) as [digits|]; cbn [List.find obind].
  - destruct (over_limit digits); [done | apply IH].
  - apply IH.
Qed.

Lemma checked_messages_spec (messages : list message) (st : parser_state) :
  fold_outcome checked_message st messages
  = match first_long_heading messages with
    | Some digits => Raised (STR_TO_INT_ERROR (String.length digits))
    | None => Returned (foldl process_message st messages)
    end.
Proof.
  revert st. induction messages as [|msg messages IH]; intros st; [done |].
  cbn [fold_outcome foldl]. unfold checked_message at 1.
  rewrite checked_lines_spec. unfold first_long_heading.
  change (heading_digits (msg :: messages))
    with (omap (heading_of (get_content msg)) (Py.split (get_content msg) NL)
          ++ heading_digits messages).
  rewrite find_app_first.
  destruct (List.find over_limit
              (omap (heading_of (get_content msg))
                    (Py.split (get_content msg) NL))); [done |].
  cbn [obind]. apply IH.
Qed.

(** The parser raises on the first heading of more than 4300 digits and
    returns [emergency_value] when there is none. *)
Lemma emergency_checked_spec (messages : list message) :
  emergency_checked messages
  = match first_long_heading messages with
    | Some digits => Raised (STR_TO_INT_ERROR (String.length digits))
    | None => Returned (emergency_value messages)
    end.
Proof.
  unfold emergency_checked. rewrite checked_messages_spec.
  by destruct (first_long_heading messages).
Qed.

Lemma emergency_checked_returned (messages : list message) (p : Plan.t) :
  emergency_checked messages = Returned p →
  first_long_heading messages = None ∧ p = emergency_value messages.
Proof.
  rewrite emergency_checked_spec.
  destruct (first_long_heading messages); [done |]. by intros [= <-].
Qed.

Lemma emergency_run (messages : list message) (w : world) :
  _emergency_test_plan_processing messages w
  = (match first_long_heading messages with
     | Some digits => Raised (STR_TO_INT_ERROR (String.length digits))
     | None => Returned (StructuredPlan (emergency_value messages))
     end,
     World (stdout w ++ [FALLBACK_BANNER]) (files w) (unwritable w)).
Proof.
  unfold _emergency_test_plan_processing, bind, print, lift, ret.
  rewrite emergency_checked_spec.
  by destruct (first_long_heading messages).
Qed.

(** A heading of 4301 digits makes the parser raise. *)
Lemma long_heading_raises :
  emergency_checked [long_heading_turn] = Raised (STR_TO_INT_ERROR 4301).
Proof. by vm_compute. Qed.

(** C5: the worked example.  A single turn made of the eight lines gives
    one case, numbered 3 and titled "Login works", with the two steps in
    order and the five other fields as written. *)
Theorem login_example_parsed (msg : message) (w : world) :
  get_content msg = login_text →
  (_emergency_test_plan_processing [msg] w).1
  = Returned (StructuredPlan
                (Plan.Build TBD TBD TBD TBD TBD [login_case] TBD)).
Proof.
  intros H.
  assert (emergency_checked [msg]
          = Returned (Plan.Build TBD TBD TBD TBD TBD [login_case] TBD)) as E.
  { unfold emergency_checked. cbn [fold_outcome]. unfold checked_message.
    rewrite H. by vm_compute. }
  unfold _emergency_test_plan_processing, bind, print, lift, ret.
  by rewrite E.
Qed.

Lemma login_example_parsed_witness :
  (_emergency_test_plan_processing [turn login_text] empty_world).1
  = Returned (StructuredPlan
                (Plan.Build TBD TBD TBD TBD TBD [login_case] TBD)).
Proof.
  apply (login_example_parsed (turn login_text) empty_world).
  vm_compute. reflexivity.
Defined.

(** C10: the parser never reads plan-level metadata.  On every transcript
    it returns unless a heading line carries more than 4300 digits, in
    which case the conversion of the first such heading raises
    [ValueError]; and the record it returns is a structured one whose six
    plan-level fields are the placeholder, whatever the transcript
    holds. *)
Theorem plan_metadata_is_placeholder (messages : list message) (w : world) :
  match first_long_heading messages with
  | None =>
      ∃ p, (_emergency_test_plan_processing messages w).1
           = Returned (StructuredPlan p)
           ∧ Plan.objective p = "To be determined"
           ∧ Plan.scope p = "To be determined"
           ∧ Plan.testing_strategy p = "To be determined"
           ∧ Plan.test_environment p = "To be determined"
           ∧ Plan.schedule p = "To be determined"
           ∧ Plan.risk_assessment p = "To be determined"
  | Some digits =>
      (_emergency_test_plan_processing messages w).1
      = Raised (STR_TO_INT_ERROR (String.length digits))
  end.
Proof.
  rewrite emergency_run.
  destruct (first_long_heading messages); [done |].
  by exists (emergency_value messages).
Qed.

(** *** Priority and status *)

(** C8 as stated fails: the words after [Priority:] and [Status:] are
    stored as they are. *)
Lemma priority_and_status_unchecked :
  Plan.test_cases (emergency_value [turn urgent_text])
  = [TestCase.Build 1 "Checkout" "pay" "" [] "" "Urgent" "Blocked"]
  ∧ ¬ Forall (λ c, valid_priority (TestCase.priority c)
                   ∧ valid_status (TestCase.status c))
        (Plan.test_cases (emergency_value [turn urgent_text])).
Proof.
  assert (Plan.test_cases (emergency_value [turn urgent_text])
          = [TestCase.Build 1 "Checkout" "pay" "" [] "" "Urgent" "Blocked"])
    as -> by (by vm_compute).
  split; [done |]. intros [[H _] _]%Forall_cons.
  unfold valid_priority in H. simpl in H.
  repeat (apply elem_of_cons in H as [H|H]; [discriminate H |]).
  by apply elem_of_nil in H.
Qed.

Lemma process_lines_tagged (content : string) (ls : list string)
    (st : parser_state) :
  foldl (process_line content) st ls
  = foldl step_tagged st ((λ line, (heading_of content line, line)) <$> ls).
Proof.
  revert st. induction ls as [|l ls IH]; intros st; [done |].
  cbn [foldl fmap list_fmap]. rewrite IH. f_equal.
  unfold step_tagged. cbn [fst snd].
  destruct (heading_of content l) as [digits|] eqn:E.
  - by apply process_line_heading.
  - by apply process_line_plain.
Qed.

Lemma process_messages_tagged (ms : list message) (st : parser_state) :
  foldl process_message st ms = foldl step_tagged st (tagged_lines ms).
Proof.
  revert st. induction ms as [|m ms IH]; intros st; [done |].
  cbn [foldl]. rewrite IH. unfold process_message.
  rewrite process_lines_tagged.
  change (tagged_lines (m :: ms))
    with (((λ line, (heading_of (get_content m) line, line))
             <$> Py.split (get_content m) NL) ++ tagged_lines ms).
  by rewrite foldl_app.
Qed.

Lemma fill_case_cons (c : TestCase.t) (l : string) (ls : list string) :
  fill_case c (l :: ls) = fill_case (extract_field l c) ls.
Proof. reflexivity. Qed.

(** The parser, case by case: the cases of the state, the open one filled
    by the lines up to the next heading, then one case per heading. *)
Lemma tagged_fold_cases (tagged : list (option string * string))
    (st : parser_state) :
  all_cases (foldl step_tagged st tagged)
  = st.1
    ++ option_list ((λ c, fill_case c (leading_lines tagged)) <$> st.2)
    ++ opened_cases tagged.
Proof.
  revert st. induction tagged as [|[[digits|] l] rest IH]; intros st.
  - unfold all_cases. simpl. rewrite app_nil_r. by destruct st.2.
  - cbn [foldl]. rewrite IH. unfold step_tagged, all_cases.
    cbn [fst snd leading_lines opened_cases fmap option_fmap option_map
         option_list].
    rewrite fill_case_cons. destruct st.2; simpl; by rewrite <- ?app_assoc.
  - cbn [foldl]. rewrite IH. unfold step_tagged.
    cbn [fst snd leading_lines opened_cases]. f_equal. f_equal.
    by destruct st.2.
Qed.

Lemma parser_opened_cases (messages : list message) :
  Plan.test_cases (emergency_value messages)
  = opened_cases (tagged_lines messages).
Proof.
  by rewrite emergency_cases, process_messages_tagged, tagged_fold_cases.
Qed.

Lemma from_option_last_cons {A B} (f : A → B) (d : B) (x : A) (l : list A) :
  from_option f d (last (x :: l)) = from_option f (f x) (last l).
Proof.
  revert d x. induction l as [|y l IH]; intros d x; [done |].
  change (last (x :: y :: l)) with (last (y :: l)). by rewrite !IH.
Qed.

Lemma last_stated_cons (label default l : string) (ls : list string) :
  last_stated label default (l :: ls)
  = last_stated label
      (if Py.startswith (Py.strip l) label
       then Py.strip (Py.last (Py.split l label)) else default) ls.
Proof.
  unfold last_stated. cbn [List.filter].
  destruct (Py.startswith (Py.strip l) label); [|done].
  exact (from_option_last_cons
           (λ line, Py.strip (Py.last (Py.split line label))) default l _).
Qed.

Lemma extract_field_priority (line : string) (c : TestCase.t) :
  TestCase.priority (extract_field line c)
  = if Py.startswith (Py.strip line) "Priority:"
    then Py.strip (Py.last (Py.split line "Priority:"))
    else TestCase.priority c.
Proof.
  unfold extract_field.
  destruct (Py.startswith (Py.strip line) "Priority:") eqn:E.
  - apply prefix_decompose in E as [r ->]. by vm_compute.
  - by repeat case_match.
Qed.

Lemma extract_field_status (line : string) (c : TestCase.t) :
  TestCase.status (extract_field line c)
  = if Py.startswith (Py.strip line) "Status:"
    then Py.strip (Py.last (Py.split line "Status:"))
    else TestCase.status c.
Proof.
  unfold extract_field.
  destruct (Py.startswith (Py.strip line) "Status:") eqn:E.
  - apply prefix_decompose in E as [r ->]. by vm_compute.
  - by repeat case_match.
Qed.

Lemma fill_case_priority (c : TestCase.t) (lines : list string) :
  TestCase.priority (fill_case c lines)
  = last_stated "Priority:" (TestCase.priority c) lines.
Proof.
  revert c. induction lines as [|l ls IH]; intros c; [done |].
  by rewrite fill_case_cons, IH, last_stated_cons, extract_field_priority.
Qed.

Lemma fill_case_status (c : TestCase.t) (lines : list string) :
  TestCase.status (fill_case c lines)
  = last_stated "Status:" (TestCase.status c) lines.
Proof.
  revert c. induction lines as [|l ls IH]; intros c; [done |].
  by rewrite fill_case_cons, IH, last_stated_cons, extract_field_status.
Qed.

(** C8, as the code has it: for each case of the record the parser
    returns, in order, the priority is the trimmed text after the last
    [Priority:] of the last line, among the case's own lines, that starts
    with [Priority:], and "Medium" when the case has no such line; the
    status is read in the same way from the lines that start with
    [Status:], with "Draft" for want of one.  The own lines of a case are
    its heading line and the lines after it up to the next heading line.
    The text is kept as written: it is not checked against the three
    allowed words. *)
Theorem priority_and_status_of_each_case
    (messages : list message) (p : Plan.t) :
  emergency_checked messages = Returned p →
  TestCase.priority <$> Plan.test_cases p
  = last_stated "Priority:" "Medium" <$> case_lines (tagged_lines messages)
  ∧ TestCase.status <$> Plan.test_cases p
    = last_stated "Status:" "Draft" <$> case_lines (tagged_lines messages).
Proof.
  intros [_ ->]%emergency_checked_returned.
  rewrite parser_opened_cases.
  induction (tagged_lines messages) as [|[[digits|] l] rest [IHp IHs]];
    [done | | done].
  cbn [opened_cases case_lines fmap list_fmap].
  rewrite IHp, IHs, fill_case_priority, fill_case_status. done.
Qed.

Lemma priority_and_status_of_each_case_witness :
  TestCase.priority <$> Plan.test_cases two_priorities_plan
  = last_stated "Priority:" "Medium"
      <$> case_lines (tagged_lines [turn two_priorities_text])
  ∧ TestCase.status <$> Plan.test_cases two_priorities_plan
    = last_stated "Status:" "Draft"
        <$> case_lines (tagged_lines [turn two_priorities_text]).
Proof.
  apply (priority_and_status_of_each_case
           [turn two_priorities_text] two_priorities_plan).
  vm_compute. reflexivity.
Defined.

(** *** Splitting at one character *)

Lemma prefix_char (c a : ascii) (s : string) :
  String.prefix (String c "") (String a s) = Ascii.eqb a c.
Proof.
  simpl. destruct (ascii_dec c a) as [->|Hne].
  - by rewrite prefix_empty, Ascii.eqb_refl.
  - symmetry. apply Ascii.eqb_neq. congruence.
Qed.

Lemma contains_char (c : ascii) (s : string) :
  Py.contains (String c "") s = has_char c s.
Proof.
  unfold Py.contains. induction s as [|a s IH]; [done |].
  rewrite find_nat_unfold, prefix_char. simpl.
  destruct (Ascii.eqb a c); [done |]. simpl. rewrite <- IH.
  by destruct (Py.find_nat (String c "") s).
Qed.

Lemma has_char_app (c : ascii) (a b : string) :
  has_char c (a +:+ b) = has_char c a || has_char c b.
Proof.
  induction a as [|x a IH]; [done |].
  rewrite append_cons. simpl. by rewrite IH, orb_assoc.
Qed.

Lemma split_cons_sep (c : ascii) (s : string) :
  Py.split (String c s) (String c "") = "" :: Py.split s (String c "").
Proof.
  unfold Py.split. cbn [Py.split_go]. by rewrite prefix_char, Ascii.eqb_refl.
Qed.

Lemma split_cons_other (c a : ascii) (s : string) :
  Ascii.eqb a c = false →
  Py.split (String a s) (String c "")
  = match Py.split s (String c "") with
    | p :: ps => String a p :: ps
    | [] => [String a ""]
    end.
Proof.
  intros H. unfold Py.split. cbn [Py.split_go]. by rewrite prefix_char, H.
Qed.

Lemma split_without_sep (c : ascii) (s : string) :
  has_char c s = false → Py.split s (String c "") = [s].
Proof.
  induction s as [|a s IH]; [done |]. simpl.
  intros [Ha Hs]%orb_false_iff.
  by rewrite split_cons_other, IH.
Qed.

Lemma split_at_first_sep (c : ascii) (before rest : string) :
  has_char c before = false →
  Py.split (before +:+ String c "" +:+ rest) (String c "")
  = before :: Py.split rest (String c "").
Proof.
  change (String c "" +:+ rest) with (String c rest).
  induction before as [|a before IH]; intros H.
  - by rewrite append_nil_l, split_cons_sep.
  - simpl in H. apply orb_false_iff in H as [Ha Hb].
    by rewrite append_cons, split_cons_other, IH.
Qed.


(** *** Titles *)




(** *** The rendering of a structured record holds no line break *)

Lemma newline_free_app (a b : string) :
  newline_free a → newline_free b → newline_free (a +:+ b).
Proof.
  unfold newline_free. intros Ha Hb. by rewrite has_char_app, Ha, Hb.
Qed.

Lemma repr_char_newline_free (quote c : ascii) :
  quote = "'"%char ∨ quote = Repr.DQUOTE → newline_free (Repr.char quote c).
Proof.
  intros [->| ->]; destruct c as [[] [] [] [] [] [] [] []]; reflexivity.
Qed.

Lemma repr_body_newline_free (quote : ascii) (s : string) :
  quote = "'"%char ∨ quote = Repr.DQUOTE → newline_free (Repr.body quote s).
Proof.
  intros Hq. induction s as [|c s IH]; [done |].
  apply newline_free_app; [by apply repr_char_newline_free | done].
Qed.

Lemma repr_str_newline_free (s : string) : newline_free (Repr.of_str s).
Proof.
  unfold Repr.of_str.
  destruct (Py.contains "'" s && negb (Py.contains (String Repr.DQUOTE "") s)).
  - apply (newline_free_app (String _ _)); [|done].
    apply (repr_body_newline_free Repr.DQUOTE s). by right.
  - apply (newline_free_app (String _ _)); [|done].
    apply (repr_body_newline_free "'" s). by left.
Qed.

Lemma repr_int_newline_free (n : N) : newline_free (Repr.of_int n).
Proof.
  unfold Repr.of_int. generalize (N.to_uint n). intros d.
  induction d; done.
Qed.

Lemma repr_join_newline_free (items : list string) :
  Forall newline_free items → newline_free (Repr.join items).
Proof.
  induction 1 as [|x rest Hx Hrest IH]; [done |].
  destruct rest as [|y rest]; [done |].
  change (Repr.join (x :: y :: rest))
    with (x +:+ ", " +:+ Repr.join (y :: rest)).
  by repeat apply newline_free_app.
Qed.

Lemma repr_list_newline_free (items : list string) :
  Forall newline_free items → newline_free (Repr.of_list items).
Proof.
  intros H. unfold Repr.of_list.
  repeat apply newline_free_app; [done | by apply repr_join_newline_free | done].
Qed.

Lemma repr_dict_newline_free (items : list (string * string)) :
  Forall (λ kv, newline_free kv.2) items → newline_free (Repr.of_dict items).
Proof.
  intros H. unfold Repr.of_dict.
  repeat apply newline_free_app; [done | | done].
  apply repr_join_newline_free, Forall_fmap.
  eapply Forall_impl; [exact H |]. intros [k v] Hv. cbn [fst snd] in *.
  apply newline_free_app; [apply repr_str_newline_free |].
  by apply newline_free_app.
Qed.

Lemma repr_test_case_newline_free (c : TestCase.t) :
  newline_free (Repr.test_case c).
Proof.
  apply repr_dict_newline_free.
  repeat constructor; simpl;
    try apply repr_str_newline_free; try apply repr_int_newline_free.
  apply repr_list_newline_free, Forall_fmap, Forall_forall.
  intros ? _. apply repr_str_newline_free.
Qed.

Lemma repr_plan_newline_free (p : Plan.t) : newline_free (Repr.plan p).
Proof.
  apply repr_dict_newline_free.
  repeat constructor; simpl; try apply repr_str_newline_free.
  apply repr_list_newline_free, Forall_fmap, Forall_forall.
  intros ? _. apply repr_test_case_newline_free.
Qed.

(** The Plan Writer's text for a structured record has three lines. *)
Lemma rendering_lines (p : Plan.t) :
  Py.split (rendering (StructuredPlan p)) NL
  = ["TEST PLAN:"; Repr.plan p; "END OF TEST PLAN"].
Proof.
  unfold rendering, NL. rewrite append_assoc.
  rewrite split_at_first_sep by done.
  rewrite split_at_first_sep by apply repr_plan_newline_free.
  by rewrite split_without_sep.
Qed.

(** *** Parsing the rendering back *)

Lemma heading_of_no_match (content line : string) :
  Re.search_test_case line = None → heading_of content line = None.
Proof. unfold heading_of. intros ->. by destruct (Py.contains _ _). Qed.

Lemma rstrip_keeps_head (a : ascii) (s : string) :
  Py.isspace a = false → ∃ r, Py.rstrip (String a s) = String a r.
Proof.
  intros Ha. simpl. rewrite Ha. destruct (Py.rstrip s); eauto.
Qed.

(** A line that starts with an opening brace sets no field. *)
Lemma extract_field_brace (s : string) (c : TestCase.t) :
  extract_field (String "{" s) c = c.
Proof.
  unfold extract_field, Py.strip.
  change (Py.lstrip (String "{" s)) with (String "{" s).
  destruct (rstrip_keeps_head "{" s eq_refl) as [r ->].
  reflexivity.
Qed.

(** What the fallback parser makes of the Plan Writer's text: nothing, or
    one case opened by the line that holds the whole record. *)
Lemma rendering_reparsed_cases (p : Plan.t) (msg : message) :
  get_content msg = rendering (StructuredPlan p) →
  Plan.test_cases (emergency_value [msg])
  = option_list (new_test_case (Repr.plan p)
                   <$> heading_of (rendering (StructuredPlan p)) (Repr.plan p)).
Proof.
  intros H. rewrite emergency_cases. cbn [foldl]. unfold process_message.
  rewrite H, rendering_lines. cbn [foldl].
  set (content := rendering (StructuredPlan p)).
  rewrite (process_line_plain content "TEST PLAN:")
    by (by apply heading_of_no_match).
  cbn [fst snd fmap option_fmap option_map].
  assert (∃ s, Repr.plan p = String "{" s) as [s Hs] by (by eexists).
  destruct (heading_of content (Repr.plan p)) as [digits|] eqn:Hh.
  - rewrite (process_line_heading _ _ _ _ Hh).
    rewrite (process_line_plain content "END OF TEST PLAN")
      by (by apply heading_of_no_match).
    cbn [fst snd]. rewrite Hs at 1. rewrite extract_field_brace.
    reflexivity.
  - rewrite (process_line_plain _ _ _ Hh).
    by rewrite (process_line_plain content "END OF TEST PLAN")
      by (by apply heading_of_no_match).
Qed.

(** C9 as stated fails: the record of the worked example, written by the
    Plan Writer and parsed back, has lost its case. *)
Lemma rendering_does_not_reparse :
  Plan.test_cases login_plan = [login_case]
  ∧ Plan.test_cases
      (emergency_value [turn (rendering (StructuredPlan login_plan))]) = []
  ∧ Plan.test_cases
      (emergency_value [turn (rendering (StructuredPlan login_plan))])
    ≠ Plan.test_cases login_plan.
Proof.
  assert (Plan.test_cases
            (emergency_value [turn (rendering (StructuredPlan login_plan))])
          = []) as -> by (by vm_compute).
  by repeat split.
Qed.

(** C9, as the code has it: the Plan Writer writes a structured record as
    three lines, the start marker, Python's [str] of the whole record on
    one line, and the end marker.  Parsed back, that text gives at most
    one case, and such a case has no steps, empty objective, preconditions
    and expected results, and the default priority and status. *)
Theorem rendering_reparsed (p : Plan.t) (msg : message) :
  get_content msg = rendering (StructuredPlan p) →
  Py.split (get_content msg) NL
  = ["TEST PLAN:"; Repr.plan p; "END OF TEST PLAN"]
  ∧ (length (Plan.test_cases (emergency_value [msg])) ≤ 1)%nat
  ∧ Forall bare_case (Plan.test_cases (emergency_value [msg])).
Proof.
  intros H. rewrite (rendering_reparsed_cases p msg H), H.
  split; [apply rendering_lines |].
  destruct (heading_of _ _); simpl; [|split; [lia | done]].
  split; [lia |]. by repeat constructor.
Qed.

Lemma rendering_reparsed_witness :
  Py.split (get_content (turn (rendering (StructuredPlan login_plan)))) NL
  = ["TEST PLAN:"; Repr.plan login_plan; "END OF TEST PLAN"]
  ∧ (length (Plan.test_cases
               (emergency_value
                  [turn (rendering (StructuredPlan login_plan))])) ≤ 1)%nat
  ∧ Forall bare_case
      (Plan.test_cases
         (emergency_value [turn (rendering (StructuredPlan login_plan))])).
Proof.
  apply (rendering_reparsed login_plan
           (turn (rendering (StructuredPlan login_plan)))).
  vm_compute. reflexivity.
Defined.

(** ** The pipeline *)


(** *** The numbers of a record can be printed *)

Lemma take_digits_idempotent (s : string) :
  Py.take_digits (Py.take_digits s) = Py.take_digits s.
Proof.
  induction s as [|c s IH]; [done |]. simpl.
  destruct (Py.isdigit c) eqn:E; [|done]. simpl. by rewrite E, IH.
Qed.

(** What the heading pattern captures is a non-empty run of digits. *)
Lemma search_test_case_digits (line digits : string) :
  Re.search_test_case line = Some digits →
  digits ≠ "" ∧ Py.take_digits digits = digits.
Proof.
  induction line as [|c line IH]; [done |].
  cbn [Re.search_test_case].
  destruct (Py.startswith (String c line) "Test Case "); [|done].
  destruct (Py.take_digits (Py.drop 10 (String c line))) as [|a r] eqn:E;
    [done |].
  intros [= <-]. split; [done |].
  rewrite <- E. apply take_digits_idempotent.
Qed.

Lemma heading_of_search (content line digits : string) :
  heading_of content line = Some digits →
  Re.search_test_case line = Some digits.
Proof.
  unfold heading_of. by destruct (Py.contains "Objective:" content).
Qed.

Lemma int_is_int_from (ds : string) : Py.int ds = int_from 0 ds.
Proof. reflexivity. Qed.

Lemma digit_value (c : ascii) :
  Py.isdigit c = true → (N_of_ascii c - 48 ≤ 9)%N.
Proof.
  unfold Py.isdigit. cbv zeta.
  intros [_ H%N.leb_le]%andb_true_iff. lia.
Qed.

(** A run of [n] digits denotes a number below [10 ^ n]. *)
Lemma int_from_bound (s : string) (acc : N) :
  Py.take_digits s = s →
  (int_from acc s < (acc + 1) * 10 ^ N.of_nat (String.length s))%N.
Proof.
  revert acc. induction s as [|c s IH]; intros acc.
  - intros _. cbn [int_from String.length N.of_nat]. rewrite N.pow_0_r. lia.
  - cbn [Py.take_digits]. destruct (Py.isdigit c) eqn:E; [|done].
    intros [= H]. cbn [int_from String.length].
    rewrite Nat2N.inj_succ, N.pow_succ_r'.
    specialize (IH (10 * acc + (N_of_ascii c - 48))%N H).
    pose proof (digit_value c E) as Hd.
    set (P := (10 ^ N.of_nat (String.length s))%N) in *.
    set (d := (N_of_ascii c - 48)%N) in *.
    nia.
Qed.

Lemma int_below_limit (digits : string) :
  Py.take_digits digits = digits → over_limit digits = false →
  (Py.int digits < INT_STR_BOUND)%N.
Proof.
  intros Hd Hl. rewrite int_is_int_from.
  eapply N.lt_le_trans; [by apply int_from_bound |].
  rewrite N.add_0_l, N.mul_1_l. unfold INT_STR_BOUND.
  apply N.pow_le_mono_r; [done |].
  unfold over_limit, MAX_STR_DIGITS in Hl. apply Nat.ltb_ge in Hl.
  change 4300%N with (N.of_nat 4300). lia.
Qed.

Lemma heading_numbers_of_digits (messages : list message) :
  heading_numbers messages = Py.int <$> heading_digits messages.
Proof.
  induction messages as [|msg messages IH]; [done |].
  change (heading_numbers (msg :: messages))
    with ((Py.int <$> omap (heading_of (get_content msg))
                           (Py.split (get_content msg) NL))
          ++ heading_numbers messages).
  change (heading_digits (msg :: messages))
    with (omap (heading_of (get_content msg)) (Py.split (get_content msg) NL)
          ++ heading_digits messages).
  by rewrite fmap_app, IH.
Qed.

Lemma heading_digits_are_digits (messages : list message) (digits : string) :
  digits ∈ heading_digits messages → Py.take_digits digits = digits.
Proof.
  unfold heading_digits.
  intros (msg & (line & _ & H)%list_elem_of_omap & _)%list_elem_of_bind.
  by apply heading_of_search, search_test_case_digits in H as [_ ?].
Qed.

(** When no heading is over the limit, every number of the record is one
    [str] accepts. *)
Lemma emergency_value_printable (messages : list message) :
  first_long_heading messages = None → printable (emergency_value messages).
Proof.
  intros Hnone. unfold printable.
  assert (Forall (λ n, (n < INT_STR_BOUND)%N)
                 (TestCase.test_case_number
                    <$> Plan.test_cases (emergency_value messages))) as H.
  { rewrite emergency_cases, process_messages_numbers.
    rewrite heading_numbers_of_digits. apply Forall_fmap, Forall_forall.
    intros digits Hin. apply int_below_limit.
    - by apply (heading_digits_are_digits messages).
    - apply (find_none over_limit _ Hnone). by apply list_elem_of_In. }
  apply Forall_fmap in H. exact H.
Qed.

(** *** [str] of a record *)

Lemma all_outcomes_returned {A B} (f : A → outcome B) (g : A → B)
    (items : list A) :
  Forall (λ x, f x = Returned (g x)) items →
  all_outcomes f items = Returned (g <$> items).
Proof.
  induction 1 as [|x l Hx _ IH]; [done |].
  cbn [all_outcomes]. by rewrite Hx, IH.
Qed.

Lemma number_repr (n : N) :
  (n < INT_STR_BOUND)%N → Value.repr (PInt (Z.of_N n)) = Returned (Repr.of_int n).
Proof.
  intros H. cbn [Value.repr]. rewrite Zabs2N.id.
  apply N.leb_gt in H. rewrite H.
  assert ((Z.of_N n <? 0) = false) as -> by (apply Z.ltb_ge; lia).
  by rewrite N2Z.id.
Qed.

Lemma steps_repr_agree (steps : list string) :
  all_outcomes Value.repr (List.map PStr steps)
  = Returned (Repr.of_str <$> steps).
Proof.
  induction steps as [|x l IH]; [done |].
  cbn [List.map all_outcomes]. rewrite IH. done.
Qed.

Lemma case_repr_agrees (c : TestCase.t) :
  (TestCase.test_case_number c < INT_STR_BOUND)%N →
  Value.repr (case_to_py c) = Returned (Repr.test_case c).
Proof.
  intros H. unfold case_to_py, Repr.test_case.
  change (Value.repr (PDict ?items))
    with (obind (all_outcomes
                   (λ kv, obind (Value.repr (snd kv))
                                (λ r, Returned (fst kv, r))) items)
                (λ rs, Returned (Repr.of_dict rs))).
  cbn [all_outcomes fst snd].
  rewrite (number_repr _ H).
  change (Value.repr (PList ?items))
    with (obind (all_outcomes Value.repr items)
                (λ rs, Returned (Repr.of_list rs))).
  rewrite steps_repr_agree. done.
Qed.

Lemma cases_repr_agree (cases : list TestCase.t) :
  Forall (λ c, (TestCase.test_case_number c < INT_STR_BOUND)%N) cases →
  all_outcomes Value.repr (List.map case_to_py cases)
  = Returned (Repr.test_case <$> cases).
Proof.
  induction 1 as [|c l Hc _ IH]; [done |].
  cbn [List.map all_outcomes]. by rewrite (case_repr_agrees c Hc), IH.
Qed.

(** The value model agrees with the Plan Writer: [str] of the dict a
    structured record is, is the text [Repr.plan] builds. *)
Lemma record_repr_agrees (p : Plan.t) :
  printable p →
  Value.str (record_to_py (StructuredPlan p)) = Returned (Repr.plan p).
Proof.
  intros H. unfold record_to_py, Repr.plan, Value.str.
  change (Value.repr (PDict ?items))
    with (obind (all_outcomes
                   (λ kv, obind (Value.repr (snd kv))
                                (λ r, Returned (fst kv, r))) items)
                (λ rs, Returned (Repr.of_dict rs))).
  cbn [all_outcomes fst snd].
  change (Value.repr (PList ?items))
    with (obind (all_outcomes Value.repr items)
                (λ rs, Returned (Repr.of_list rs))).
  rewrite (cases_repr_agree _ H). done.
Qed.

(** *** The runs of the methods *)

Lemma save_run (self : generator) (test_plan : test_plan_record)
    (file_name : string) (w : world) :
  let path := path_join (output_folder self) file_name in
  path ∉ unwritable w →
  match test_plan with
  | RawPlan _ => True
  | StructuredPlan p => printable p
  end →
  _save_test_plan_to_file self test_plan file_name w
  = (Returned tt,
     World (stdout w ++ [ "Saving test plan to " +:+ path +:+ "...";
                          "Test plan saved successfully at " +:+ path +:+ "!" ])
           (<[path := rendering test_plan]> (files w)) (unwritable w)).
Proof.
  intros path Hw Hp. destruct w as [out fs ro]. simpl in Hw.
  unfold _save_test_plan_to_file. fold path.
  unfold bind at 1. unfold print at 1. cbn [stdout files unwritable].
  unfold bind at 1. unfold open_write. cbn [stdout files unwritable].
  destruct (decide (path ∈ ro)); [done |].
  destruct test_plan as [text|p].
  - unfold bind, file_write, print. cbn [stdout files unwritable rendering].
    rewrite lookup_insert_eq, insert_insert_eq. cbn [default].
    by rewrite append_nil_l, <- app_assoc.
  - unfold bind, file_write, print, lift. rewrite (record_repr_agrees p Hp).
    cbn [stdout files unwritable rendering].
    rewrite !lookup_insert_eq, !insert_insert_eq. cbn [default].
    by rewrite append_nil_l, <- app_assoc, <- !append_assoc.
Qed.

Lemma save_refused (self : generator) (test_plan : test_plan_record)
    (file_name : string) (w : world) :
  let path := path_join (output_folder self) file_name in
  path ∈ unwritable w →
  _save_test_plan_to_file self test_plan file_name w
  = (Raised ("[Errno 13] Permission denied: " +:+ Repr.of_str path),
     World (stdout w ++ [ "Saving test plan to " +:+ path +:+ "..." ])
           (files w) (unwritable w)).
Proof.
  intros path Hw. destruct w as [out fs ro]. simpl in Hw.
  unfold _save_test_plan_to_file. fold path.
  unfold bind at 1. unfold print at 1. cbn [stdout files unwritable].
  unfold bind at 1. unfold open_write. cbn [stdout files unwritable].
  by destruct (decide (path ∈ ro)).
Qed.

Lemma process_run (messages : list message) (w : world) :
  _process_test_plan_results messages w
  = (Returned (extract_value messages),
     World (stdout w
            ++ "Processing test plan results..."
               :: "Extracting test plan content..."
               :: match scan_reversed (rev messages) with
                  | Some _ => []
                  | None => ["No structured test plan found in the messages."]
                  end)
           (files w) (unwritable w)).
Proof.
  destruct w as [out fs ro].
  cbv [_process_test_plan_results _extract_test_plan_content extract_value
       bind print ret stdout files unwritable].
  destruct (scan_reversed (rev messages)); by rewrite <- !app_assoc.
Qed.

Lemma extract_value_is_raw (messages : list message) :
  match extract_value messages with
  | RawPlan _ => True
  | StructuredPlan p => printable p
  end.
Proof. unfold extract_value. by destruct (scan_reversed (rev messages)). Qed.

(** The lines the extractor prints on its way. *)
Lemma banner_not_in_trial (messages : list message) (path : string) :
  FALLBACK_BANNER
  ∉ [ NL +:+ "Generating test plan...";
      "Processing test plan results...";
      "Extracting test plan content..." ]
    ++ match scan_reversed (rev messages) with
       | Some _ => []
       | None => ["No structured test plan found in the messages."]
       end
    ++ [ "Saving test plan to " +:+ path +:+ "...";
         "Test plan saved successfully at " +:+ path +:+ "!" ].
Proof.
  unfold FALLBACK_BANNER. destruct (scan_reversed (rev messages)); simpl;
    intros H;
    repeat (apply elem_of_cons in H as [H|H]; [discriminate H |]);
    by apply elem_of_nil in H.
Qed.

Ltac run_pipeline :=
  cbv [generate_test_plan try_except bind initiate_chat chat_error
       transcript raise ret lift];
  cbv [print];
  repeat first
    [ rewrite process_run
    | rewrite emergency_run
    | rewrite save_run
        by first [ done | apply extract_value_is_raw ]
    | rewrite save_refused by done
    | progress cbn [stdout files unwritable] ].

(** The chat returned and the file can be opened. *)
Lemma generate_run_chat_ok (self : generator) (msgs : list message)
    (file_name : string) (w : world) :
  let path := path_join (output_folder self) file_name in
  path ∉ unwritable w →
  ∃ log, (FALLBACK_BANNER ∉ log)
    ∧ generate_test_plan self (Chat msgs None) file_name w
      = (Returned (extract_value msgs),
         World (stdout w ++ log)
               (<[path := rendering (extract_value msgs)]> (files w))
               (unwritable w)).
Proof.
  intros path Hw.
  exists ([ NL +:+ "Generating test plan...";
            "Processing test plan results...";
            "Extracting test plan content..." ]
          ++ match scan_reversed (rev msgs) with
             | Some _ => []
             | None => ["No structured test plan found in the messages."]
             end
          ++ [ "Saving test plan to " +:+ path +:+ "...";
               "Test plan saved successfully at " +:+ path +:+ "!" ]).
  split; [apply banner_not_in_trial |].
  run_pipeline. cbn [fst snd stdout files unwritable].
  do 2 f_equal. rewrite <- !app_assoc. simpl.
  by destruct (scan_reversed (rev msgs)).
Qed.

(** The chat raised, no heading is over the limit and the file can be
    opened. *)
Lemma generate_run_chat_raised (self : generator) (msgs : list message)
    (e file_name : string) (w : world) :
  let path := path_join (output_folder self) file_name in
  path ∉ unwritable w →
  first_long_heading msgs = None →
  generate_test_plan self (Chat msgs (Some (ChatError e))) file_name w
  = (Returned (StructuredPlan (emergency_value msgs)),
     World (stdout w ++ chat_failure_log e path)
           (<[path := rendering (StructuredPlan (emergency_value msgs))]>
              (files w))
           (unwritable w)).
Proof.
  intros path Hw Hnone.
  cbv [generate_test_plan try_except bind initiate_chat chat_error
       transcript raise ret lift].
  cbv [print]. rewrite emergency_run, Hnone. cbn [stdout files unwritable].
  rewrite save_run by (try done; by apply emergency_value_printable).
  cbn [fst snd stdout files unwritable]. by rewrite <- !app_assoc.
Qed.

(** The handler was entered and a heading is over the limit: the parser
    raises, and nothing is saved. *)
Lemma generate_run_long_heading (self : generator) (msgs : list message)
    (e file_name digits : string) (w : world) :
  first_long_heading msgs = Some digits →
  generate_test_plan self (Chat msgs (Some (ChatError e))) file_name w
  = (Raised (STR_TO_INT_ERROR (String.length digits)),
     World (stdout w ++ [ NL +:+ "Generating test plan...";
                          "Error generating test plan: " +:+ e;
                          FALLBACK_BANNER ])
           (files w) (unwritable w)).
Proof.
  intros Hlong.
  cbv [generate_test_plan try_except bind initiate_chat chat_error
       transcript raise ret lift].
  cbv [print]. rewrite emergency_run, Hlong. cbn [stdout files unwritable].
  cbn [fst snd stdout files unwritable]. by rewrite <- !app_assoc.
Qed.

(** The chat ended with an exception outside [Exception]: it goes through
    the handler untouched. *)
Lemma generate_run_interrupted (self : generator) (msgs : list message)
    (e file_name : string) (w : world) :
  generate_test_plan self (Chat msgs (Some (ChatInterrupt e))) file_name w
  = (Interrupted e,
     World (stdout w ++ [NL +:+ "Generating test plan..."]) (files w)
           (unwritable w)).
Proof. reflexivity. Qed.

(** The chat raised and the file cannot be opened. *)
Lemma generate_run_raised_refused (self : generator) (msgs : list message)
    (e file_name : string) (w : world) :
  let path := path_join (output_folder self) file_name in
  path ∈ unwritable w →
  first_long_heading msgs = None →
  generate_test_plan self (Chat msgs (Some (ChatError e))) file_name w
  = (Raised ("[Errno 13] Permission denied: " +:+ Repr.of_str path),
     World (stdout w ++ [ NL +:+ "Generating test plan...";
                          "Error generating test plan: " +:+ e;
                          FALLBACK_BANNER;
                          "Saving test plan to " +:+ path +:+ "..." ])
           (files w) (unwritable w)).
Proof.
  intros path Hw Hnone.
  cbv [generate_test_plan try_except bind initiate_chat chat_error
       transcript raise ret lift].
  cbv [print]. rewrite emergency_run, Hnone. cbn [stdout files unwritable].
  rewrite save_refused by done.
  cbn [fst snd stdout files unwritable]. by rewrite <- !app_assoc.
Qed.

(** The chat returned and the file cannot be opened: the first save
    raises, the handler runs, and the run ends with the parser's
    exception or with that of the second save. *)
Lemma generate_run_refused (self : generator) (msgs : list message)
    (file_name : string) (w : world) :
  let path := path_join (output_folder self) file_name in
  path ∈ unwritable w →
  ∃ log, (FALLBACK_BANNER ∈ log)
    ∧ generate_test_plan self (Chat msgs None) file_name w
      = (match first_long_heading msgs with
         | Some digits => Raised (STR_TO_INT_ERROR (String.length digits))
         | None =>
             Raised ("[Errno 13] Permission denied: " +:+ Repr.of_str path)
         end,
         World (stdout w ++ log) (files w) (unwritable w)).
Proof.
  intros path Hw.
  exists ([ NL +:+ "Generating test plan...";
            "Processing test plan results...";
            "Extracting test plan content..." ]
          ++ match scan_reversed (rev msgs) with
             | Some _ => []
             | None => ["No structured test plan found in the messages."]
             end
          ++ [ "Saving test plan to " +:+ path +:+ "...";
               "Error generating test plan: "
               +:+ "[Errno 13] Permission denied: " +:+ Repr.of_str path;
               FALLBACK_BANNER ]
          ++ match first_long_heading msgs with
             | Some _ => []
             | None => [ "Saving test plan to " +:+ path +:+ "..." ]
             end).
  split; [set_solver |].
  cbv [generate_test_plan try_except bind initiate_chat chat_error
       transcript raise ret lift].
  cbv [print]. rewrite process_run. cbn [stdout files unwritable].
  rewrite save_refused by done. cbn [stdout files unwritable].
  rewrite emergency_run.
  destruct (first_long_heading msgs) as [digits|]; cbn [stdout files unwritable].
  - cbn [fst snd stdout files unwritable]. do 2 f_equal.
    rewrite <- !app_assoc. simpl.
    by destruct (scan_reversed (rev msgs)).
  - rewrite save_refused by done.
    cbn [fst snd stdout files unwritable]. do 2 f_equal.
    rewrite <- !app_assoc. simpl.
    by destruct (scan_reversed (rev msgs)).
Qed.




(** The handler itself can fail: with a heading of 4301 digits in the
    transcript and a chat that raised, the run ends with the [ValueError]
    of the conversion. *)
Lemma pipeline_long_heading :
  soft_miss [long_heading_turn]
  ∧ (generate_test_plan (Generator "output")
       (Chat [long_heading_turn] (Some (ChatError "timeout")))
       "test_plan.txt" empty_world).1
    = Raised (STR_TO_INT_ERROR 4301).
Proof.
  split; [by vm_compute |].
  rewrite (generate_run_long_heading _ _ _ _ long_digits) by (by vm_compute).
  cbn [fst]. f_equal.
Qed.

(** * Further properties of the code *)

(** ** Occurrences, prefixes and pieces of a string *)

Lemma drop_empty (k : nat) : Py.drop k "" = "".
Proof. by destruct k. Qed.

Lemma drop_drop (a b : nat) (s : string) :
  Py.drop b (Py.drop a s) = Py.drop (a + b) s.
Proof.
  revert s. induction a as [|a IH]; intros s; [done |].
  destruct s as [|c s]; simpl; [apply drop_empty | apply IH].
Qed.

Lemma prefix_length (p s : string) :
  String.prefix p s = true → (String.length p ≤ String.length s)%nat.
Proof.
  revert s. induction p as [|a p IH]; intros s H; simpl; [lia |].
  destruct s as [|b s]; simpl in *; [done |].
  destruct (ascii_dec a b); [|done]. specialize (IH s H). lia.
Qed.

Lemma occurrence_contains (sub s : string) (k : nat) :
  String.prefix sub (Py.drop k s) = true → Py.contains sub s = true.
Proof.
  unfold Py.contains. revert k.
  induction s as [|c s IH]; intros k H; rewrite find_nat_unfold.
  - rewrite drop_empty in H. by rewrite H.
  - destruct (String.prefix sub (String c s)) eqn:E; [done |].
    destruct k as [|k]; [cbn [Py.drop] in H; congruence |].
    cbn [Py.drop] in H. specialize (IH k H). by destruct (Py.find_nat sub s).
Qed.

Lemma contains_first (sub s : string) :
  Py.contains sub s = true →
  ∃ i, first_occurrence sub s i ∧ Py.find s sub = Z.of_nat i.
Proof.
  intros (i & Hi & Hf)%contains_find. exists i.
  split; [by apply find_nat_first | done].
Qed.

Lemma take_drop_chars (n : nat) (s : string) :
  take_chars n s +:+ Py.drop n s = s.
Proof.
  revert s. induction n as [|n IH]; intros [|c s]; try done.
  simpl. by rewrite append_cons, IH.
Qed.

Lemma substring_take_drop (n m : nat) (s : string) :
  String.substring n m s = take_chars m (Py.drop n s).
Proof.
  revert n m. induction s as [|c s IH]; intros [|n] [|m]; simpl;
    rewrite ?IH; done.
Qed.

Lemma drop_take_chars (k n : nat) (s : string) :
  Py.drop k (take_chars n s) = take_chars (n - k) (Py.drop k s).
Proof.
  revert n s. induction k as [|k IH]; intros n s.
  - by rewrite Nat.sub_0_r.
  - destruct n as [|n]; [by destruct (Py.drop (S k) s) |].
    destruct s as [|c s]; simpl; [by destruct (n - k)%nat |]. apply IH.
Qed.

Lemma prefix_take_chars (p s : string) (n : nat) :
  String.prefix p (take_chars n s) = true →
  String.prefix p s = true ∧ (String.length p ≤ n)%nat.
Proof.
  revert s n. induction p as [|a p IH]; intros s n H.
  - split; [apply prefix_empty | simpl; lia].
  - destruct n as [|n]; [by destruct s |].
    destruct s as [|b s]; [done |]. simpl in *.
    destruct (ascii_dec a b); [|done].
    destruct (IH s n H). split; [done | lia].
Qed.

(** An occurrence inside [s[:n]] is an occurrence in [s] that ends by [n]. *)
Lemma occurrence_in_take (sub s : string) (k n : nat) :
  sub ≠ "" →
  String.prefix sub (Py.drop k (take_chars n s)) = true →
  String.prefix sub (Py.drop k s) = true ∧ (k < n)%nat.
Proof.
  intros Hne H. rewrite drop_take_chars in H.
  apply prefix_take_chars in H as [H Hl]. split; [done |].
  destruct sub; [done |]. simpl in Hl. lia.
Qed.

Lemma lstrip_is_drop (s : string) : ∃ n, Py.lstrip s = Py.drop n s.
Proof.
  induction s as [|c s [n IH]]; [by exists 0%nat |]. simpl.
  destruct (Py.isspace c); [by exists (S n) | by exists 0%nat].
Qed.

Lemma rstrip_is_take (s : string) : ∃ n, Py.rstrip s = take_chars n s.
Proof.
  induction s as [|c s [n IH]]; [by exists 0%nat |]. simpl.
  destruct (Py.rstrip s) as [|a r] eqn:E.
  - destruct (Py.isspace c); [by exists 0%nat | by exists 1%nat].
  - exists (S n). simpl. by rewrite <- IH.
Qed.

(** An occurrence in the trimmed text is an occurrence in the text. *)
Lemma contains_strip (sub s : string) :
  sub ≠ "" → Py.contains sub (Py.strip s) = true → Py.contains sub s = true.
Proof.
  intros Hne (k & [Hk _] & _)%contains_first. unfold Py.strip in Hk.
  destruct (rstrip_is_take (Py.lstrip s)) as [n Hn]. rewrite Hn in Hk.
  apply occurrence_in_take in Hk as [Hk _]; [|done].
  destruct (lstrip_is_drop s) as [d Hd]. rewrite Hd, drop_drop in Hk.
  by apply occurrence_contains in Hk.
Qed.

Lemma rstrip_after_marker (rest : string) :
  Py.rstrip (START_MARKER +:+ rest) = START_MARKER +:+ Py.rstrip rest.
Proof.
  unfold START_MARKER. rewrite !append_cons, !append_nil_l. simpl.
  by destruct (Py.rstrip rest).
Qed.

(** The two markers cannot overlap: an end marker that starts after the
    start of a start marker starts after its end. *)
Lemma markers_do_not_overlap (s : string) (i j : nat) :
  String.prefix START_MARKER (Py.drop i s) = true →
  String.prefix END_MARKER (Py.drop j s) = true →
  (i < j)%nat → (i + 10 ≤ j)%nat.
Proof.
  intros [r Hs]%prefix_decompose He Hij.
  replace j with (i + (j - i))%nat in He by lia.
  rewrite <- drop_drop, Hs in He.
  destruct (j - i)%nat as [|[|[|[|[|[|[|[|[|[|k]]]]]]]]]] eqn:E;
    try (exfalso; lia); try (vm_compute in He; discriminate He).
  lia.
Qed.

Lemma length_drop (k : nat) (s : string) :
  String.length (Py.drop k s) = (String.length s - k)%nat.
Proof.
  revert s. induction k as [|k IH]; intros [|c s]; simpl; auto with lia.
Qed.

Lemma occurrence_in_range (sub s : string) (k : nat) :
  String.prefix sub (Py.drop k s) = true →
  (k + String.length sub ≤ String.length s ∨ sub = "")%nat.
Proof.
  intros H%prefix_length. rewrite length_drop in H.
  destruct sub; [by right |]. simpl in *. left. lia.
Qed.

Lemma slice_forward (s : string) (i j : nat) :
  (i < j ≤ String.length s)%nat →
  Py.slice s (Z.of_nat i) (Z.of_nat j) = take_chars (j - i) (Py.drop i s).
Proof.
  intros Hij. unfold Py.slice.
  replace (Z.of_nat i <? 0) with false by (symmetry; apply Z.ltb_ge; lia).
  replace (Z.of_nat j <? 0) with false by (symmetry; apply Z.ltb_ge; lia).
  rewrite !Z.min_l by lia.
  replace (Z.of_nat i <? Z.of_nat j) with true
    by (symmetry; apply Z.ltb_lt; lia).
  replace (Z.to_nat (Z.of_nat j - Z.of_nat i)) with (j - i)%nat by lia.
  by rewrite Nat2Z.id, substring_take_drop.
Qed.

Lemma take_chars_app (a r : string) (m : nat) :
  take_chars (String.length a + m) (a +:+ r) = a +:+ take_chars m r.
Proof.
  induction a as [|c a IH]; [done |].
  rewrite !append_cons. simpl. by rewrite IH.
Qed.

(** ** The text the extractor returns *)

(** With the end marker after the start marker the block keeps the start
    marker at its head. *)
Lemma block_starts_with_marker (c : string) (i j : nat) :
  first_occurrence START_MARKER c i →
  first_occurrence END_MARKER c j →
  (i < j)%nat →
  Py.startswith
    (Py.strip (Py.slice c (Z.of_nat i) (Z.of_nat j))) START_MARKER = true.
Proof.
  intros [Hi _] [Hj _] Hij.
  pose proof (markers_do_not_overlap c i j Hi Hj Hij) as Hgap.
  destruct (occurrence_in_range _ _ _ Hj) as [Hlen|]; [|done].
  rewrite slice_forward by lia.
  destruct (prefix_decompose _ _ Hi) as [r ->].
  replace (j - i)%nat with (String.length START_MARKER + (j - i - 10))%nat
    by (simpl; lia).
  rewrite take_chars_app. unfold Py.strip.
  assert (∀ x, Py.lstrip (START_MARKER +:+ x) = START_MARKER +:+ x) as ->
    by done.
  rewrite rstrip_after_marker. apply prefix_append.
Qed.

(** The block never holds the end marker. *)
Lemma block_without_end_marker (c : string) (i j : nat) :
  first_occurrence END_MARKER c j →
  Py.contains END_MARKER (Py.strip (Py.slice c (Z.of_nat i) (Z.of_nat j)))
  = false.
Proof.
  intros [Hj Hfirst].
  destruct (Py.contains END_MARKER _) eqn:E; [exfalso | done].
  apply contains_strip in E; [|done].
  destruct (decide (i < j)%nat) as [Hij|Hij].
  - destruct (occurrence_in_range _ _ _ Hj) as [Hlen|]; [|done].
    rewrite slice_forward in E by lia.
    apply contains_first in E as (k & [Hk _] & _).
    apply occurrence_in_take in Hk as [Hk Hlt]; [|done].
    rewrite drop_drop in Hk. rewrite Hfirst in Hk; [done | lia].
  - by rewrite slice_backwards in E by lia.
Qed.

Lemma scan_result (msgs : list message) (text : string) :
  scan_reversed msgs = Some text →
  ∃ m, m ∈ msgs
       ∧ has_both_markers (get_content m) = true
       ∧ text = block_of (get_content m).
Proof.
  induction msgs as [|m msgs IH]; [done |].
  destruct (has_both_markers (get_content m)) eqn:E.
  - rewrite scan_hit by done. intros [= <-]. exists m. by rewrite elem_of_cons; auto.
  - rewrite scan_skip by done. intros (m' & ? & ? & ?)%IH.
    exists m'. rewrite elem_of_cons. auto.
Qed.

Lemma scan_none (msgs : list message) :
  scan_reversed msgs = None → no_block msgs.
Proof.
  induction msgs as [|m msgs IH]; [by constructor |].
  destruct (has_both_markers (get_content m)) eqn:E.
  - by rewrite scan_hit.
  - rewrite scan_skip by done. intros H. constructor; [done | by apply IH].
Qed.

(** The block of a turn that holds both markers: empty, or headed by the
    start marker; and without the end marker. *)
Lemma block_of_shape (c : string) :
  has_both_markers c = true →
  (block_of c = "" ∨ Py.startswith (block_of c) START_MARKER = true)
  ∧ Py.contains END_MARKER (block_of c) = false.
Proof.
  intros [Hs He]%andb_true_iff. unfold block_of.
  destruct (contains_first _ _ Hs) as (i & Hi & ->).
  destruct (contains_first _ _ He) as (j & Hj & ->).
  split; [| by apply block_without_end_marker].
  destruct (decide (i < j)%nat).
  - right. by apply block_starts_with_marker.
  - left. by rewrite slice_backwards by lia.
Qed.

(** X1: the extractor returns the sentinel exactly when no turn holds both
    markers; a block it extracts is never mistaken for the sentinel. *)
Theorem sentinel_iff_no_block (messages : list message) (w : world) :
  (_extract_test_plan_content messages w).1 = Returned (RawPlan NO_PLAN)
  ↔ no_block messages.
Proof.
  rewrite extract_run. split.
  - unfold extract_value.
    destruct (scan_reversed (rev messages)) as [text|] eqn:E.
    + apply scan_result in E as (m & _ & Hm & ->).
      destruct (block_of_shape _ Hm) as [[H|H] _]; intros [= Heq];
        rewrite Heq in H; done.
    + intros _. apply scan_none in E. unfold no_block in *.
      rewrite <- (rev_involutive messages). by apply Forall_rev.
  - intros H. f_equal. by apply soft_miss_without_markers.
Qed.

(** X2: the text the extractor returns is the sentinel, or empty, or
    begins with the start marker. *)
Theorem extracted_text_shape (messages : list message) (w : world) :
  ∃ text,
    (_extract_test_plan_content messages w).1 = Returned (RawPlan text)
    ∧ (text = NO_PLAN ∨ text = ""
       ∨ Py.startswith text START_MARKER = true).
Proof.
  rewrite extract_run. unfold extract_value.
  destruct (scan_reversed (rev messages)) as [text|] eqn:E.
  - exists text. split; [done |]. right.
    apply scan_result in E as (m & _ & Hm & ->).
    by destruct (block_of_shape _ Hm) as [[H|H] _]; auto.
  - exists NO_PLAN. auto.
Qed.

(** X3: the text the extractor returns never holds the end marker. *)
Theorem extracted_text_has_no_end_marker (messages : list message) (w : world) :
  ∃ text,
    (_extract_test_plan_content messages w).1 = Returned (RawPlan text)
    ∧ Py.contains END_MARKER text = false.
Proof.
  rewrite extract_run. unfold extract_value.
  destruct (scan_reversed (rev messages)) as [text|] eqn:E.
  - exists text. split; [done |].
    apply scan_result in E as (m & _ & Hm & ->).
    by destruct (block_of_shape _ Hm) as [_ H].
  - by exists NO_PLAN.
Qed.

Lemma extract_value_text (messages : list message) :
  ∃ text, extract_value messages = RawPlan text
          ∧ Py.contains END_MARKER text = false.
Proof.
  unfold extract_value.
  destruct (scan_reversed (rev messages)) as [text|] eqn:E.
  - exists text. split; [done |].
    apply scan_result in E as (m & _ & Hm & ->).
    by destruct (block_of_shape _ Hm) as [_ H].
  - by exists NO_PLAN.
Qed.

(** X4: extracting is not idempotent.  The text the extractor returns,
    put back as a turn, is a soft miss: it has lost its end marker. *)
Theorem extracted_text_is_not_extractable
    (messages : list message) (text : string) (again : message) (w w' : world) :
  (_extract_test_plan_content messages w).1 = Returned (RawPlan text) →
  get_content again = text →
  (_extract_test_plan_content [again] w').1 = Returned (RawPlan NO_PLAN).
Proof.
  rewrite !extract_run. intros H Hc.
  destruct (extract_value_text messages) as (t & Ht & Hend).
  rewrite Ht in H. injection H as ->.
  f_equal. apply soft_miss_without_markers. repeat constructor.
  unfold has_both_markers. by rewrite Hc, Hend, andb_false_r.
Qed.

Lemma extracted_text_is_not_extractable_witness :
  (_extract_test_plan_content [turn "TEST PLAN:  final"] empty_world).1
  = Returned (RawPlan NO_PLAN).
Proof.
  apply (extracted_text_is_not_extractable
           [draft_turn; final_turn] "TEST PLAN:  final"
           (turn "TEST PLAN:  final") empty_world empty_world).
  - vm_compute. reflexivity.
  - vm_compute. reflexivity.
Defined.

(** X5: the text the Plan Writer saves for a structured record is never a
    soft miss for the extractor: read back as a turn it gives a raw plan
    that begins with the start marker. *)
Theorem structured_rendering_is_extractable
    (p : Plan.t) (msg : message) (w : world) :
  get_content msg = rendering (StructuredPlan p) →
  ∃ text,
    (_extract_test_plan_content [msg] w).1 = Returned (RawPlan text)
    ∧ Py.startswith text START_MARKER = true
    ∧ text ≠ NO_PLAN.
Proof.
  intros Hc. rewrite extract_run.
  assert (delimited (get_content msg)) as Hd.
  { exists "", (NL +:+ Repr.plan p +:+ NL), "". rewrite Hc.
    unfold rendering, START_MARKER, END_MARKER.
    by rewrite !append_assoc. }
  pose proof (delimited_has_both _ Hd) as Hb.
  change [msg] with ([] ++ msg :: []).
  rewrite (extract_value_latest [] [] msg Hb) by constructor.
  pose proof Hb as [Hs He]%andb_true_iff.
  destruct (contains_first _ _ Hs) as (i & Hi & Hfi).
  destruct (contains_first _ _ He) as (j & Hj & Hfj).
  assert (i = 0)%nat as ->.
  { apply (first_occurrence_unique START_MARKER (get_content msg)); [done |].
    split; [| lia]. rewrite Hc. unfold rendering.
    rewrite append_assoc. apply prefix_append. }
  assert (0 < j)%nat as Hj0.
  { destruct j; [| lia]. destruct Hj as [Hj _]. rewrite Hc in Hj.
    unfold rendering in Hj. by vm_compute in Hj. }
  exists (block_of (get_content msg)). split; [done |].
  assert (Py.startswith (block_of (get_content msg)) START_MARKER = true) as H.
  { unfold block_of. rewrite Hfi, Hfj. by apply block_starts_with_marker. }
  split; [done |]. intros Heq. by rewrite Heq in H.
Qed.

Lemma structured_rendering_is_extractable_witness :
  ∃ text,
    (_extract_test_plan_content
       [turn (rendering (StructuredPlan login_plan))] empty_world).1
    = Returned (RawPlan text)
    ∧ Py.startswith text START_MARKER = true
    ∧ text ≠ NO_PLAN.
Proof.
  apply (structured_rendering_is_extractable login_plan
           (turn (rendering (StructuredPlan login_plan))) empty_world).
  vm_compute. reflexivity.
Defined.

(** ** Only the content of a message is read *)

Lemma scan_reads_content (msgs msgs' : list message) :
  get_content <$> msgs = get_content <$> msgs' →
  scan_reversed msgs = scan_reversed msgs'.
Proof.
  revert msgs'. induction msgs as [|m msgs IH]; intros [|m' msgs'] H;
    try done.
  injection H as Hm Hrest. simpl. rewrite Hm. by rewrite (IH msgs').
Qed.

Lemma fmap_rev {A B} (f : A → B) (l : list A) : f <$> rev l = rev (f <$> l).
Proof.
  induction l as [|x l IH]; [done |]. simpl. by rewrite fmap_app, IH.
Qed.

Lemma parser_reads_content (msgs msgs' : list message) (st : parser_state) :
  get_content <$> msgs = get_content <$> msgs' →
  foldl process_message st msgs = foldl process_message st msgs'.
Proof.
  revert msgs' st. induction msgs as [|m msgs IH]; intros [|m' msgs'] st H;
    try done.
  injection H as Hm Hrest. simpl. unfold process_message at 2 4.
  rewrite Hm. by apply IH.
Qed.

Lemma heading_digits_of_contents (msgs : list message) :
  heading_digits msgs
  = (get_content <$> msgs) ≫= λ c, omap (heading_of c) (Py.split c NL).
Proof.
  induction msgs as [|m msgs IH]; [done |].
  change (heading_digits (m :: msgs))
    with (omap (heading_of (get_content m)) (Py.split (get_content m) NL)
          ++ heading_digits msgs).
  by rewrite IH.
Qed.

(** X6: both readers of the transcript look at nothing but the content of
    each message, and a message without content counts as an empty one:
    transcripts with the same contents give the same results. *)
Theorem only_content_is_read (messages messages' : list message) (w : world) :
  get_content <$> messages = get_content <$> messages' →
  (_extract_test_plan_content messages w).1
  = (_extract_test_plan_content messages' w).1
  ∧ (_emergency_test_plan_processing messages w).1
    = (_emergency_test_plan_processing messages' w).1.
Proof.
  intros H. rewrite !extract_run, !emergency_run. cbn [fst]. split.
  - unfold extract_value.
    by rewrite (scan_reads_content (rev messages) (rev messages'))
      by (by rewrite !fmap_rev, H).
  - unfold first_long_heading, emergency_value.
    by rewrite !heading_digits_of_contents, H,
               (parser_reads_content _ _ _ H).
Qed.

Lemma only_content_is_read_witness :
  (_extract_test_plan_content [bare_message; named_turn login_text]
     empty_world).1
  = (_extract_test_plan_content [turn ""; turn login_text] empty_world).1
  ∧ (_emergency_test_plan_processing [bare_message; named_turn login_text]
       empty_world).1
    = (_emergency_test_plan_processing [turn ""; turn login_text]
         empty_world).1.
Proof.
  apply (only_content_is_read [bare_message; named_turn login_text]
           [turn ""; turn login_text] empty_world).
  vm_compute. reflexivity.
Defined.

(** ** The pipeline, whatever the transcript *)




(** X9: when the output file cannot be opened no file is changed and the
    run never returns.  An exception of the chat outside [Exception] ends
    it.  Otherwise the handler runs (on the chat's exception, or on that
    of the first save) and the run ends with the parser's [ValueError]
    if a heading line carries more than 4300 digits, and with the Plan
    Writer's [PermissionError] if none does. *)
Theorem pipeline_write_refused
    (self : generator) (chat : chat_outcome) (file_name : string) (w : world) :
  let path := path_join (output_folder self) file_name in
  let run := generate_test_plan self chat file_name w in
  path ∈ unwritable w →
  run.1 = match chat_error chat with
          | Some (ChatInterrupt e) => Interrupted e
          | _ =>
              match first_long_heading (transcript chat) with
              | Some digits =>
                  Raised (STR_TO_INT_ERROR (String.length digits))
              | None =>
                  Raised ("[Errno 13] Permission denied: "
                          +:+ Repr.of_str path)
              end
          end
  ∧ files run.2 = files w.
Proof.
  intros path run Hw. unfold run.
  destruct chat as [msgs [[e|e]|]]; cbn [chat_error transcript].
  - destruct (first_long_heading msgs) as [digits|] eqn:Hlong.
    + by rewrite (generate_run_long_heading _ _ _ _ _ _ Hlong).
    + by rewrite generate_run_raised_refused.
  - by rewrite generate_run_interrupted.
  - by destruct (generate_run_refused self msgs file_name w Hw)
      as (? & _ & ->).
Qed.

Lemma pipeline_write_refused_witness :
  let w := World [] ∅ {[ "output/test_plan.txt" ]} in
  let run := generate_test_plan (Generator "output")
               (Chat [final_turn] None) "test_plan.txt" w in
  run.1 = Raised ("[Errno 13] Permission denied: "
                  +:+ Repr.of_str "output/test_plan.txt")
  ∧ files run.2 = files w.
Proof.
  apply (pipeline_write_refused (Generator "output")
           (Chat [final_turn] None) "test_plan.txt"
           (World [] ∅ {[ "output/test_plan.txt" ]})).
  simpl. apply elem_of_singleton. reflexivity.
Defined.

(** ** Invariants of the fallback parser *)

(** A property that holds of every fresh case and is kept by every field
    line of the transcript holds of every case of the record. *)
Lemma parser_invariant (P : TestCase.t → Prop) (messages : list message) :
  (∀ content line digits,
     heading_of content line = Some digits → P (new_test_case line digits)) →
  (∀ line c, line ∈ transcript_lines messages → P c → P (extract_field line c)) →
  Forall P (Plan.test_cases (emergency_value messages)).
Proof.
  intros Hnew Hstep. rewrite emergency_cases.
  assert (∀ content line st,
            line ∈ transcript_lines messages →
            Forall P (all_cases st) →
            Forall P (all_cases (process_line content st line))) as Hline.
  { intros content line st Hin Hst.
    destruct (process_line_cases content line st) as (closed & cur & Heq & ->).
    assert (Forall P (closed ++ option_list cur)) as H.
    { rewrite <- Heq. apply Forall_app. split; [done |].
      destruct (heading_of content line) eqn:Hh; simpl; [|done].
      repeat constructor. by apply (Hnew content). }
    apply Forall_app in H as [Hc Hcur]. apply Forall_app. split; [done |].
    destruct cur as [c|]; simpl in *; [|done].
    rewrite Forall_singleton in Hcur |- *. by apply Hstep. }
  assert (∀ content ls st,
            ls ⊆ transcript_lines messages →
            Forall P (all_cases st) →
            Forall P (all_cases (foldl (process_line content) st ls))) as Hlines.
  { intros content ls. induction ls as [|l ls IH]; intros st Hsub Hst; [done |].
    simpl. apply IH; [set_solver |]. apply Hline; [set_solver | done]. }
  cut (∀ ms st,
         ms ⊆ messages →
         Forall P (all_cases st) →
         Forall P (all_cases (foldl process_message st ms))).
  { intros H. by apply H. }
  induction ms as [|m ms IH]; intros st Hsub Hst; [done |].
  simpl. apply IH; [set_solver |]. apply Hlines; [|done].
  intros line Hl. apply list_elem_of_bind. exists m. split; [done | set_solver].
Qed.

Lemma heading_numbers_cons (m : message) (ms : list message) :
  heading_numbers (m :: ms)
  = (Py.int <$> omap (heading_of (get_content m))
                     (Py.split (get_content m) NL))
    ++ heading_numbers ms.
Proof. reflexivity. Qed.

Lemma heading_numbers_without_objective (messages : list message) :
  Forall (λ m, Py.contains "Objective:" (get_content m) = false) messages →
  heading_numbers messages = [].
Proof.
  induction 1 as [|m ms Hm _ IH]; [done |].
  rewrite heading_numbers_cons, IH, app_nil_r.
  assert (omap (heading_of (get_content m)) (Py.split (get_content m) NL)
          = []) as ->; [|done].
  induction (Py.split (get_content m) NL) as [|l ls IHl]; [done |].
  simpl. unfold heading_of at 1. by rewrite Hm.
Qed.

(** X10: a turn that mentions a test case without naming an objective
    opens nothing.  When no turn of the transcript holds [Objective:] the
    record has no case. *)
Theorem no_objective_no_case (messages : list message) (w : world) :
  Forall (λ m, Py.contains "Objective:" (get_content m) = false) messages →
  (_emergency_test_plan_processing messages w).1
  = Returned (StructuredPlan (Plan.Build TBD TBD TBD TBD TBD [] TBD)).
Proof.
  intros H. rewrite emergency_run. cbn [fst].
  assert (heading_digits messages = []) as Hd.
  { apply (fmap_nil_inv Py.int). rewrite <- heading_numbers_of_digits.
    by apply heading_numbers_without_objective. }
  unfold first_long_heading. rewrite Hd. cbn [List.find]. do 2 f_equal.
  assert (Plan.test_cases (emergency_value messages) = []) as Hc.
  { apply (fmap_nil_inv TestCase.test_case_number).
    rewrite emergency_cases, process_messages_numbers.
    by rewrite heading_numbers_without_objective. }
  unfold emergency_value in *. simpl in *. by rewrite Hc.
Qed.

Lemma no_objective_no_case_witness :
  (_emergency_test_plan_processing [turn casual_mention] empty_world).1
  = Returned (StructuredPlan (Plan.Build TBD TBD TBD TBD TBD [] TBD)).
Proof.
  apply (no_objective_no_case [turn casual_mention] empty_world).
  repeat constructor.
Defined.

Lemma extract_field_steps (lines : list string) (line : string)
    (c : TestCase.t) :
  line ∈ lines → steps_traced lines c → steps_traced lines (extract_field line c).
Proof.
  intros Hin Hc. unfold extract_field.
  destruct (Py.startswith (Py.strip line) "Objective:"); [done |].
  destruct (Py.startswith (Py.strip line) "Preconditions:"); [done |].
  destruct (Py.startswith (Py.strip line) "Expected Results:"); [done |].
  destruct (Py.startswith (Py.strip line) "Priority:"); [done |].
  destruct (Py.startswith (Py.strip line) "Status:"); [done |].
  destruct (_ || _) eqn:E; [|done].
  unfold steps_traced. simpl. apply Forall_app. split; [done |].
  apply Forall_singleton. exists line.
  split; [done |]. split; [done |]. by apply orb_true_iff.
Qed.

(** X11: every step of every case of the record is a line of the
    transcript, trimmed, that begins with a dash or with digits followed
    by a dot; no other text is ever stored as a step. *)
Theorem steps_come_from_step_lines (messages : list message) :
  Forall (steps_traced (transcript_lines messages))
         (Plan.test_cases (emergency_value messages)).
Proof.
  apply parser_invariant.
  - intros content line digits _. by constructor.
  - intros line c. apply extract_field_steps.
Qed.

(** *** Cases already listed are kept *)

Lemma process_line_closed (content line : string) (st : parser_state) :
  st.1 `prefix_of` (process_line content st line).1.
Proof.
  unfold process_line, open_case. destruct st as [cases cur]. simpl.
  destruct (Re.search_test_case line); [|done].
  destruct (Py.contains "Objective:" content); [|done]. simpl.
  destruct cur; [by apply prefix_app_r | done].
Qed.

Lemma process_message_closed (msg : message) (st : parser_state) :
  st.1 `prefix_of` (process_message st msg).1.
Proof.
  unfold process_message.
  generalize (Py.split (get_content msg) NL). intros ls. revert st.
  induction ls as [|l ls IH]; intros st; [done |]. simpl.
  etrans; [apply process_line_closed | apply IH].
Qed.

Lemma process_messages_closed (ms : list message) (st : parser_state) :
  st.1 `prefix_of` (foldl process_message st ms).1.
Proof.
  revert st. induction ms as [|m ms IH]; intros st; [done |]. simpl.
  etrans; [apply process_message_closed | apply IH].
Qed.

Lemma extract_field_key (line : string) (c : TestCase.t) :
  heading_key (extract_field line c) = heading_key c.
Proof.
  unfold heading_key. by rewrite extract_field_number, extract_field_title.
Qed.

Lemma process_line_keys (content line : string) (st : parser_state) :
  heading_key <$> all_cases st
  `prefix_of` heading_key <$> all_cases (process_line content st line).
Proof.
  destruct (process_line_cases content line st) as (closed & cur & Heq & ->).
  assert (heading_key <$> all_cases (closed, extract_field line <$> cur)
          = heading_key <$> (closed ++ option_list cur)) as ->.
  { unfold all_cases. simpl. rewrite !fmap_app. f_equal.
    destruct cur; simpl; [by rewrite extract_field_key | done]. }
  rewrite <- Heq, fmap_app. by apply prefix_app_r.
Qed.

Lemma process_messages_keys (ms : list message) (st : parser_state) :
  heading_key <$> all_cases st
  `prefix_of` heading_key <$> all_cases (foldl process_message st ms).
Proof.
  revert st. induction ms as [|m ms IH]; intros st; [done |]. simpl.
  etrans; [| apply IH]. unfold process_message.
  generalize (Py.split (get_content m) NL). intros ls. revert st.
  induction ls as [|l ls IHl]; intros st; [done |]. simpl.
  etrans; [apply process_line_keys | apply IHl].
Qed.

(** X12: going on with the transcript never rewrites what is listed.
    Every case but the last of the record of a transcript stays as it is
    in the record of any longer transcript, and the last one keeps its
    number and title: only the case still open can take more fields. *)
Theorem listed_cases_are_kept (messages more : list message) :
  let before := Plan.test_cases (emergency_value messages) in
  let after := Plan.test_cases (emergency_value (messages ++ more)) in
  take (length before - 1) before `prefix_of` after
  ∧ heading_key <$> before `prefix_of` heading_key <$> after.
Proof.
  intros before after. unfold before, after.
  rewrite !emergency_cases, foldl_app.
  set (st := foldl process_message ([], None) messages).
  split; [| apply process_messages_keys].
  trans st.1.
  - unfold all_cases. destruct st.2; simpl.
    + rewrite length_app. simpl.
      replace (length st.1 + 1 - 1)%nat with (length st.1) by lia.
      by rewrite take_app_length.
    + rewrite app_nil_r. apply prefix_take.
  - etrans; [apply process_messages_closed |].
    by apply prefix_app_r.
Qed.

(** *** Trimmed fields *)

Lemma lstrip_head_kept (s : string) : head_kept (Py.lstrip s).
Proof.
  induction s as [|c s IH]; [done |]. simpl.
  by destruct (Py.isspace c) eqn:E.
Qed.

Lemma lstrip_of_head_kept (s : string) : head_kept s → Py.lstrip s = s.
Proof. destruct s as [|c s]; [done |]. simpl. by intros ->. Qed.

Lemma rstrip_head_kept (s : string) : head_kept s → head_kept (Py.rstrip s).
Proof.
  destruct s as [|c s]; [done |]. simpl. intros Hc.
  destruct (Py.rstrip s); [by rewrite Hc | done].
Qed.

Lemma rstrip_idempotent (s : string) : Py.rstrip (Py.rstrip s) = Py.rstrip s.
Proof.
  induction s as [|c s IH]; [done |]. simpl.
  destruct (Py.rstrip s) as [|a r] eqn:E.
  - destruct (Py.isspace c) eqn:Hc; [done |]. simpl. by rewrite Hc.
  - change (Py.rstrip (String c (String a r)))
      with (match Py.rstrip (String a r) with
            | EmptyString =>
                if Py.isspace c then EmptyString else String c EmptyString
            | r' => String c r'
            end).
    by rewrite IH.
Qed.

(** [strip] leaves a trimmed text. *)
Lemma strip_trimmed (s : string) : trimmed (Py.strip s).
Proof.
  unfold trimmed, Py.strip.
  rewrite (lstrip_of_head_kept (Py.rstrip (Py.lstrip s)))
    by apply rstrip_head_kept, lstrip_head_kept.
  apply rstrip_idempotent.
Qed.

Lemma digit_not_space (c : ascii) : Py.isdigit c = true → Py.isspace c = false.
Proof. by destruct c as [[] [] [] [] [] [] [] []]. Qed.

Lemma rstrip_cons_kept (c : ascii) (s : string) :
  Py.rstrip s ≠ "" ∨ Py.isspace c = false →
  Py.rstrip (String c s) = String c (Py.rstrip s).
Proof.
  simpl. destruct (Py.rstrip s); [|done]. by intros [?| ->].
Qed.

Lemma rstrip_digits (s : string) : Py.take_digits s = s → Py.rstrip s = s.
Proof.
  induction s as [|c s IH]; [done |]. simpl.
  destruct (Py.isdigit c) eqn:E; [|done]. intros [= H].
  rewrite (IH H). destruct s; [by rewrite (digit_not_space c E) | done].
Qed.

Lemma synthesized_title_trimmed (digits : string) :
  digits ≠ "" → Py.take_digits digits = digits →
  trimmed ("Test Case " +:+ digits).
Proof.
  intros Hne Hd. unfold trimmed, Py.strip.
  assert (Py.lstrip ("Test Case " +:+ digits) = "Test Case " +:+ digits)
    as -> by done.
  pose proof (rstrip_digits digits Hd) as Hr.
  rewrite !append_cons, append_nil_l.
  rewrite !rstrip_cons_kept; rewrite ?Hr; auto.
  all: left; try done; rewrite ?rstrip_cons_kept; rewrite ?Hr; auto.
Qed.

Lemma new_test_case_trimmed (content line digits : string) :
  heading_of content line = Some digits →
  trimmed_case (new_test_case line digits).
Proof.
  intros [Hne Hd]%heading_of_search%search_test_case_digits.
  unfold new_test_case, trimmed_case. simpl.
  split; [| by repeat split].
  destruct (Py.contains ":" line);
    [apply strip_trimmed | by apply synthesized_title_trimmed].
Qed.

Lemma extract_field_trimmed (line : string) (c : TestCase.t) :
  trimmed_case c → trimmed_case (extract_field line c).
Proof.
  intros (Ht & Ho & Hp & Hs & He & Hpr & Hst). unfold extract_field.
  destruct (Py.startswith (Py.strip line) "Objective:").
  { repeat split; try done. apply strip_trimmed. }
  destruct (Py.startswith (Py.strip line) "Preconditions:").
  { repeat split; try done. apply strip_trimmed. }
  destruct (Py.startswith (Py.strip line) "Expected Results:").
  { repeat split; try done. apply strip_trimmed. }
  destruct (Py.startswith (Py.strip line) "Priority:").
  { repeat split; try done. apply strip_trimmed. }
  destruct (Py.startswith (Py.strip line) "Status:").
  { repeat split; try done. apply strip_trimmed. }
  destruct (_ || _); [| by repeat split].
  repeat split; try done. simpl.
  apply Forall_app. split; [done |].
  apply Forall_singleton, strip_trimmed.
Qed.

(** X13: every text the fallback parser stores (title, objective,
    preconditions, each step, expected results, priority and status) is
    trimmed: it has no whitespace at either end. *)
Theorem stored_texts_are_trimmed (messages : list message) :
  Forall trimmed_case (Plan.test_cases (emergency_value messages)).
Proof.
  apply parser_invariant.
  - apply new_test_case_trimmed.
  - intros line c _. apply extract_field_trimmed.
Qed.

(** *** Where a turn ends *)

Lemma split_nonempty (s sep : string) : Py.split s sep ≠ [].
Proof.
  unfold Py.split. generalize 0%nat. induction s as [|c s IH]; intros k;
    [done |].
  cbn [Py.split_go]. destruct k; [| apply IH].
  destruct (String.prefix sep (String c s)); [done |].
  specialize (IH 0%nat). by destruct (Py.split_go sep 0 s).
Qed.

(** Splitting at a character distributes over joining with it. *)
Lemma split_join (c : ascii) (a b : string) :
  Py.split (a +:+ String c "" +:+ b) (String c "")
  = Py.split a (String c "") ++ Py.split b (String c "").
Proof.
  change (String c "" +:+ b) with (String c b).
  induction a as [|x a IH].
  - by rewrite append_nil_l, split_cons_sep.
  - rewrite append_cons. destruct (Ascii.eqb x c) eqn:E.
    + apply Ascii.eqb_eq in E as ->. by rewrite !split_cons_sep, IH.
    + rewrite !split_cons_other, IH by done.
      pose proof (split_nonempty a (String c "")).
      by destruct (Py.split a (String c "")).
Qed.

Lemma contains_decompose (sub s : string) :
  Py.contains sub s = true → ∃ a b, s = a +:+ sub +:+ b.
Proof.
  intros (i & [Hi _] & _)%contains_first.
  destruct (prefix_decompose _ _ Hi) as [r Hr].
  exists (take_chars i s), r. by rewrite <- Hr, take_drop_chars.
Qed.

Lemma contains_app_l (sub a b : string) :
  Py.contains sub a = true → Py.contains sub (a +:+ b) = true.
Proof.
  intros (x & y & ->)%contains_decompose.
  rewrite !append_assoc. apply contains_occurrence.
Qed.

Lemma contains_app_r (sub a b : string) :
  Py.contains sub b = true → Py.contains sub (a +:+ b) = true.
Proof.
  intros (x & y & ->)%contains_decompose.
  rewrite <- append_assoc. apply contains_occurrence.
Qed.

(** A line is read in the same way in any turn that names an objective. *)
Lemma process_line_objective (content content' line : string)
    (st : parser_state) :
  Py.contains "Objective:" content = Py.contains "Objective:" content' →
  process_line content st line = process_line content' st line.
Proof. unfold process_line, open_case. by intros ->. Qed.

Lemma process_lines_objective (content content' : string)
    (ls : list string) (st : parser_state) :
  Py.contains "Objective:" content = Py.contains "Objective:" content' →
  foldl (process_line content) st ls = foldl (process_line content') st ls.
Proof.
  intros H. revert st. induction ls as [|l ls IH]; intros st; [done |].
  simpl. by rewrite (process_line_objective content content' l st H), IH.
Qed.

(** X14: a turn may be cut in two at a line break without changing the
    record, as long as both halves name an objective: a case opened in
    one turn goes on taking fields from the next. *)
Theorem turn_boundary_is_immaterial
    (earlier later : list message) (whole first second : message) :
  Py.contains "Objective:" (get_content first) = true →
  Py.contains "Objective:" (get_content second) = true →
  get_content whole = get_content first +:+ NL +:+ get_content second →
  emergency_value (earlier ++ whole :: later)
  = emergency_value (earlier ++ first :: second :: later).
Proof.
  intros H1 H2 Hw. unfold emergency_value.
  rewrite !foldl_app. cbn [foldl].
  set (st := foldl process_message ([], None) earlier).
  assert (process_message st whole
          = process_message (process_message st first) second) as ->; [|done].
  unfold process_message. rewrite Hw. unfold NL.
  set (c1 := get_content first). set (c2 := get_content second).
  set (joined := c1 +:+ String "010" "" +:+ c2).
  assert (Py.contains "Objective:" joined = true) as Hj
    by (by apply contains_app_l).
  unfold joined at 2. rewrite split_join, foldl_app.
  rewrite (process_lines_objective joined c1 (Py.split c1 _) st)
    by (by rewrite Hj).
  apply process_lines_objective. by rewrite Hj.
Qed.

Lemma turn_boundary_is_immaterial_witness :
  emergency_value
    ([] ++ turn (get_content opening_turn +:+ NL +:+ get_content closing_turn)
        :: [])
  = emergency_value ([] ++ opening_turn :: closing_turn :: []).
Proof.
  apply (turn_boundary_is_immaterial [] []
           (turn (get_content opening_turn +:+ NL +:+ get_content closing_turn))
           opening_turn closing_turn).
  - vm_compute. reflexivity.
  - vm_compute. reflexivity.
  - vm_compute. reflexivity.
Defined.

(** ** The caller and the agents' context *)

(** Whatever record the generator returned, the printing loop of [main]
    stops at the first key of the dict. *)
Lemma report_of_record (r : test_plan_record) (w : world) :
  report (record_to_py r) w
  = (Raised TYPE_ERROR,
     World (stdout w ++ [NL +:+ "Generated Test Plan:"]) (files w)
           (unwritable w)).
Proof. by destruct r, w. Qed.

Lemma main_run (chat : chat_outcome) (w : world) :
  main chat w
  = match generate_test_plan (Generator "output") chat "test_plan.txt"
            (World (stdout w ++ ["Generating test plan..."]) (files w)
                   (unwritable w)) with
    | (Returned r, w') => report (record_to_py r) w'
    | (Raised e, w') => (Raised e, w')
    | (Interrupted e, w') => (Interrupted e, w')
    end.
Proof. reflexivity. Qed.

(** A run of the generator touches no file but its own, and ends as
    [expected_outcome] says when that file can be opened; when it cannot,
    the run does not return. *)
Lemma generate_run_shape (self : generator) (chat : chat_outcome)
    (file_name : string) (w : world) :
  let path := path_join (output_folder self) file_name in
  ∃ o w',
    generate_test_plan self chat file_name w = (o, w')
    ∧ (∀ other, other ≠ path → files w' !! other = files w !! other)
    ∧ (path ∉ unwritable w → o = expected_outcome chat)
    ∧ (path ∈ unwritable w → ∀ r, o ≠ Returned r).
Proof.
  intros path. unfold expected_outcome.
  destruct chat as [msgs [[e|e]|]]; cbn [chat_error transcript].
  - destruct (first_long_heading msgs) as [digits|] eqn:Hlong.
    + eexists _, _. split; [by apply generate_run_long_heading |].
      by repeat split.
    + destruct (decide (path ∈ unwritable w)) as [Hw|Hw].
      * eexists _, _. split; [by apply generate_run_raised_refused |].
        by repeat split.
      * eexists _, _. split; [by apply generate_run_chat_raised |].
        cbn [files]. split; [| by split].
        intros other Hne. by rewrite lookup_insert_ne.
  - eexists _, _. split; [by apply generate_run_interrupted |].
    by repeat split.
  - destruct (decide (path ∈ unwritable w)) as [Hw|Hw].
    + destruct (generate_run_refused self msgs file_name w Hw)
        as (log & _ & ->).
      eexists _, _. split; [done |]. split; [done |]. split; [done |].
      intros _ r. by destruct (first_long_heading msgs).
    + destruct (generate_run_chat_ok self msgs file_name w Hw)
        as (log & _ & ->).
      eexists _, _. split; [done |]. cbn [files]. split; [| by split].
      intros other Hne. by rewrite lookup_insert_ne.
Qed.

(** X15: [main] never completes.  It iterates over the dict the generator
    returns, so its loop variable is a key, and subscripting that string
    raises: every run ends with an exception, and the report file
    [test_plan_output/test_plan.txt] is never touched.  When the plan file
    can be opened and the generator returns, the exception is the
    [TypeError] of the first subscript, raised right after the line
    "Generated Test Plan:"; when the generator does not return, its own
    exception ends [main]. *)
Theorem main_always_raises (chat : chat_outcome) (w : world) :
  let run := main chat w in
  (∃ e, run.1 = Raised e ∨ run.1 = Interrupted e)
  ∧ files run.2 !! REPORT_PATH = files w !! REPORT_PATH
  ∧ ("output/test_plan.txt" ∉ unwritable w →
     match expected_outcome chat with
     | Returned _ =>
         run.1 = Raised TYPE_ERROR
         ∧ last (stdout run.2) = Some (NL +:+ "Generated Test Plan:")
     | Raised e => run.1 = Raised e
     | Interrupted e => run.1 = Interrupted e
     end).
Proof.
  intros run. unfold run. rewrite main_run.
  set (w1 := World (stdout w ++ ["Generating test plan..."]) (files w)
                   (unwritable w)).
  destruct (generate_run_shape (Generator "output") chat "test_plan.txt" w1)
    as (o & w' & -> & Hfiles & Hexp & _).
  specialize (Hfiles REPORT_PATH). cbn [files w1] in Hfiles.
  destruct o as [r|e|e].
  - rewrite report_of_record. cbn [fst snd stdout files].
    split; [by exists TYPE_ERROR; left |].
    split; [by apply Hfiles |].
    intros Hw. rewrite <- (Hexp Hw). split; [done |]. by rewrite last_snoc.
  - cbn [fst snd]. split; [by exists e; left |].
    split; [by apply Hfiles |]. intros Hw. by rewrite <- (Hexp Hw).
  - cbn [fst snd]. split; [by exists e; right |].
    split; [by apply Hfiles |]. intros Hw. by rewrite <- (Hexp Hw).
Qed.

Lemma context_of_parser_case (c : TestCase.t) (w : world) :
  context_of_case (case_to_py c) w = (Raised "'id'", w).
Proof. reflexivity. Qed.

Lemma context_rejects_parser_cases
    (c : TestCase.t) (cases : list TestCase.t) (w : world) :
  _format_test_plan_context (PList (List.map case_to_py (c :: cases))) w
  = (Raised "'id'", w).
Proof. reflexivity. Qed.

(** Building the strings of one case prints nothing and touches no file. *)
Lemma context_of_case_pure (c : pyvalue) (w : world) :
  (context_of_case c w).2 = w.
Proof.
  unfold context_of_case, field, bind, lift, ret.
  repeat case_match; simplify_eq; done.
Qed.

Lemma context_parts_grow (cases : list pyvalue) (parts ps : list string)
    (w w' : world) :
  context_parts cases parts w = (Returned ps, w') →
  parts `prefix_of` ps ∧ w' = w.
Proof.
  revert parts. induction cases as [|c cases IH]; intros parts.
  - intros [= <- <-]. done.
  - cbn [context_parts]. unfold bind at 1.
    pose proof (context_of_case_pure c w) as Hpure.
    destruct (context_of_case c w) as [[more|e|e] w1] eqn:E; [|done|done].
    cbn [snd] in Hpure. subst w1.
    intros [Hp ->]%IH. split; [| done].
    etrans; [by apply prefix_app_r | exact Hp].
Qed.

Lemma prefix_refl (s : string) : String.prefix s s = true.
Proof.
  induction s as [|c s IH]; [done |]. simpl.
  destruct (ascii_dec c c); [done | congruence].
Qed.

Lemma concat_with_head (sep x : string) (rest : list string) :
  String.prefix x (Value.concat_with sep (x :: rest)) = true.
Proof.
  destruct rest; [apply prefix_refl | apply prefix_append].
Qed.

(** X17: the agents' context is empty exactly for an empty plan.  When
    [_format_test_plan_context] returns, its text is empty if the plan is
    [None] or empty and begins with "Complete Test Plan:" otherwise;
    nothing is printed and no file is touched. *)
Theorem context_is_empty_or_headed
    (test_plan : pyvalue) (text : string) (w w' : world) :
  _format_test_plan_context test_plan w = (Returned text, w') →
  w' = w
  ∧ (if Value.truthy test_plan
     then Py.startswith text "Complete Test Plan:" = true
     else text = "").
Proof.
  unfold _format_test_plan_context.
  destruct (Value.truthy test_plan); cbn [negb].
  - unfold bind at 1, lift.
    destruct (Value.iterate test_plan) as [cases|e|e]; [|done|done].
    unfold bind.
    destruct (context_parts cases ["Complete Test Plan:"] w)
      as [[ps|e|e] w1] eqn:E; [|done|done].
    apply context_parts_grow in E as [[rest ->] ->].
    intros [= <- <-]. split; [done |]. apply concat_with_head.
  - by intros [= <- <-].
Qed.

Lemma context_is_empty_or_headed_witness :
  empty_world = empty_world
  ∧ (if Value.truthy context_plan
     then Py.startswith
            ("Complete Test Plan:" +:+ NL +:+ NL +:+
             "Test Case 3: Login works" +:+ NL +:+
             "Objective: verify login" +:+ NL +:+
             "Preconditions: user exists" +:+ NL +:+
             "Steps: step one, step two" +:+ NL +:+
             "Expected Results: dashboard shown")
            "Complete Test Plan:" = true
     else ("Complete Test Plan:" +:+ NL +:+ NL +:+
           "Test Case 3: Login works" +:+ NL +:+
           "Objective: verify login" +:+ NL +:+
           "Preconditions: user exists" +:+ NL +:+
           "Steps: step one, step two" +:+ NL +:+
           "Expected Results: dashboard shown") = "").
Proof.
  apply (context_is_empty_or_headed context_plan _ empty_world empty_world).
  vm_compute. reflexivity.
Defined.

(** ** Titles hold no colon *)

Lemma split_pieces_free (c : ascii) (s : string) :
  Forall (λ piece, has_char c piece = false) (Py.split s (String c "")).
Proof.
  induction s as [|a s IH]; [by repeat constructor |].
  destruct (Ascii.eqb a c) eqn:E.
  - apply Ascii.eqb_eq in E as ->. rewrite split_cons_sep. by constructor.
  - rewrite split_cons_other by done.
    destruct (Py.split s (String c "")) as [|p ps].
    + repeat constructor. simpl. by rewrite E.
    + apply Forall_cons in IH as [Hp Hps]. constructor; [|done].
      simpl. by rewrite E, Hp.
Qed.

Lemma last_piece_free (c : ascii) (s : string) :
  has_char c (Py.last (Py.split s (String c ""))) = false.
Proof.
  unfold Py.last. pose proof (split_pieces_free c s) as H.
  induction H as [|p ps Hp _ IH]; [done |].
  destruct ps; [done | exact IH].
Qed.

Lemma strip_keeps_free (c : ascii) (s : string) :
  has_char c s = false → has_char c (Py.strip s) = false.
Proof.
  intros H. destruct (has_char c (Py.strip s)) eqn:E; [|done].
  rewrite <- contains_char in E. apply contains_strip in E; [|done].
  rewrite contains_char in E. congruence.
Qed.

Lemma digits_hold_no_colon (s : string) :
  Py.take_digits s = s → has_char ":" s = false.
Proof.
  induction s as [|c s IH]; [done |]. simpl.
  destruct (Py.isdigit c) eqn:E; [|done]. intros [= H].
  rewrite (IH H), orb_false_r.
  by destruct c as [[] [] [] [] [] [] [] []].
Qed.

(** X18: no title in the fallback parser's record holds a colon: the
    title is cut after the last colon of its heading line, and a title
    made from the digits alone has none. *)
Theorem titles_hold_no_colon (messages : list message) :
  Forall (λ c, Py.contains ":" (TestCase.title c) = false)
         (Plan.test_cases (emergency_value messages)).
Proof.
  apply parser_invariant.
  - intros content line digits [_ Hd]%heading_of_search%search_test_case_digits.
    unfold new_test_case. cbn [TestCase.title]. rewrite contains_char.
    destruct (Py.contains ":" line).
    + apply strip_keeps_free, last_piece_free.
    + rewrite has_char_app. by rewrite (digits_hold_no_colon digits Hd).
  - intros line c _. by rewrite extract_field_title.
Qed.

(** ** All the cases or none *)

Lemma field_run (v : pyvalue) (key : string) (w : world) :
  field v key w = (obind (Value.getitem v key) Value.str, w).
Proof.
  unfold field, bind, lift. by destruct (Value.getitem v key).
Qed.

Lemma field_of_entry (items : list (string * pyvalue)) (key : string)
    (w : world) :
  (∃ text, field (PDict items) key w = (Returned text, w))
  ↔ has_text items key.
Proof.
  rewrite field_run. unfold has_text, formattable. cbn [Value.getitem].
  destruct (Value.lookup key items) as [x|]; cbn [obind].
  - split.
    + intros [text [= H]]. exists x. split; [done | by exists text].
    + intros (? & [= <-] & text & ->). by exists text.
  - split; [by intros [? [=]] | by intros (? & [=] & _)].
Qed.

Lemma context_of_case_returns (c : pyvalue) (w : world) :
  (∃ more, context_of_case c w = (Returned more, w)) ↔ complete_case c.
Proof.
  unfold complete_case. split.
  - intros [more H]. revert H. unfold context_of_case.
    destruct c as [| | |l|items]; try done.
    unfold bind. rewrite !field_run.
    destruct (obind (Value.getitem (PDict items) "id") Value.str)
      as [t1| |] eqn:E1; [|done|done].
    destruct (obind (Value.getitem (PDict items) "title") Value.str)
      as [t2| |] eqn:E2; [|done|done].
    destruct (obind (Value.getitem (PDict items) "objective") Value.str)
      as [t3| |] eqn:E3; [|done|done].
    destruct (obind (Value.getitem (PDict items) "preconditions") Value.str)
      as [t4| |] eqn:E4; [|done|done].
    unfold lift.
    destruct (Value.getitem (PDict items) "steps")
      as [steps| |] eqn:E5; [|done|done].
    cbn [Value.getitem] in E5.
    destruct (Value.lookup "steps" items) as [x|] eqn:E5'; [|done].
    injection E5 as ->.
    destruct (Value.join ", " steps) as [joined| |] eqn:E6; [|done|done].
    rewrite field_run.
    destruct (obind (Value.getitem (PDict items) "expected_results") Value.str)
      as [t5| |] eqn:E7; [|done|done].
    intros _. exists items, steps. split; [done |].
    repeat split; try done; try (by exists joined);
      apply (field_of_entry items _ w); rewrite field_run;
      eexists; f_equal; eassumption.
  - intros (items & steps & -> & H1 & H2 & H3 & H4 & H5 & [joined H6] & H7).
    apply (field_of_entry items _ w) in H1 as [t1 H1], H2 as [t2 H2],
      H3 as [t3 H3], H4 as [t4 H4], H7 as [t5 H7].
    unfold context_of_case, bind. rewrite H1, H2, H3, H4.
    unfold lift at 1. cbn [Value.getitem]. rewrite H5.
    unfold lift at 1. rewrite H6, H7. by eexists.
Qed.

Lemma context_parts_returns (cases : list pyvalue) (parts : list string)
    (w : world) :
  (∃ ps, context_parts cases parts w = (Returned ps, w))
  ↔ Forall complete_case cases.
Proof.
  revert parts. induction cases as [|c cases IH]; intros parts.
  - split; [by constructor | by eexists].
  - cbn [context_parts]. unfold bind at 1. split.
    + intros [ps H].
      destruct (context_of_case c w) as [[more|e|e] w1] eqn:E; [|done|done].
      pose proof H as [_ Heq]%context_parts_grow. subst w1.
      constructor.
      * apply (context_of_case_returns c w). by exists more.
      * apply (IH (parts ++ more)). by exists ps.
    + intros [Hc Hrest]%Forall_cons.
      apply (context_of_case_returns c w) in Hc as [more ->].
      by apply IH.
Qed.

(** X16: the agents' context is built from all the cases or not at all.
    On a list of cases [_format_test_plan_context] returns exactly when
    every case is a dict holding ["id"], ["title"], ["objective"],
    ["preconditions"] and ["expected_results"] with values that can be
    formatted (no integer of more than 4300 digits among them) and
    ["steps"] with a sequence of strings; one incomplete case anywhere
    makes the whole call raise. *)
Theorem context_needs_complete_cases (cases : list pyvalue) (w : world) :
  (∃ text, _format_test_plan_context (PList cases) w = (Returned text, w))
  ↔ Forall complete_case cases.
Proof.
  unfold _format_test_plan_context.
  destruct cases as [|c cases]; [split; [by constructor | by eexists] |].
  cbn [Value.truthy negb]. unfold bind at 1, lift. cbn [Value.iterate].
  rewrite <- (context_parts_returns (c :: cases) ["Complete Test Plan:"] w).
  unfold bind, ret.
  destruct (context_parts (c :: cases) ["Complete Test Plan:"] w)
    as [[ps|e|e] w1] eqn:E.
  - apply context_parts_grow in E as [_ ->]. split; by eexists.
  - split; intros [? ?]; done.
  - split; intros [? ?]; done.
Qed.

(** A case whose ["id"] is an integer of 4301 digits is not complete: the
    formatter raises on it. *)
Lemma huge_id_is_not_complete :
  ¬ complete_case
      (PDict [ ("id", PInt (Z.of_N INT_STR_BOUND)); ("title", PStr "t");
               ("objective", PStr "o"); ("preconditions", PStr "p");
               ("steps", PList []); ("expected_results", PStr "r") ]).
Proof.
  intros (items & steps & [= <-] & (x & [= <-] & text & H) & _).
  revert H. unfold Value.str. cbn [Value.repr].
  change (Z.abs_N (Z.pos (10 ^ 4300))) with INT_STR_BOUND.
  by rewrite N.leb_refl.
Qed.

(** X19: the agents' context cannot be built from what the fallback
    parser recovers.  The parser files the number of a case under
    ["test_case_number"] and the formatter asks each case for ["id"]: on
    the cases of the record of any transcript that has a heading line the
    call raises [KeyError: 'id']; it returns, with the empty text, only
    when the transcript has no heading line. *)
Theorem context_of_recovered_cases (messages : list message) (w : world) :
  _format_test_plan_context
    (PList (List.map case_to_py (Plan.test_cases (emergency_value messages)))) w
  = (match heading_numbers messages with
     | [] => Returned ""
     | _ => Raised "'id'"
     end, w).
Proof.
  assert (TestCase.test_case_number
            <$> Plan.test_cases (emergency_value messages)
          = heading_numbers messages) as H
    by (by rewrite emergency_cases, process_messages_numbers).
  destruct (Plan.test_cases (emergency_value messages)) as [|c cases].
  - by rewrite <- H.
  - rewrite context_rejects_parser_cases. by rewrite <- H.
Qed.
